(** * Registro de Vacinação: the filtering and aggregation pipeline

    A shallow embedding of [dashboard_vacinacao.py]: the loader
    ([load_data]), the cascade of sidebar filters, and the aggregates fed
    to the charts.  A pandas DataFrame is a list of rows in frame order,
    each carrying its index label; a missing cell (NaN, NaT) is [None]. *)

From Stdlib Require Import List ZArith Lia Bool String Ascii.
From Stdlib Require Import Permutation Sorted QArith.
From Stdlib Require Import SpecFloat Decimal DecimalString.
From Stdlib Require Import DecimalFacts DecimalPos DecimalN.
Import ListNotations.

Local Open Scope string_scope.
Local Open Scope Z_scope.

(** ** Cells, dates and timestamps *)

(** A text cell of the CSV, or a value of a categorical column: [None]
    is pandas' NaN. *)
Definition cell := option string.

Definition cell_eqb (a b : cell) : bool :=
  match a, b with
  | Some x, Some y => String.eqb x y
  | None, None => true
  | _, _ => false
  end.

(** [datetime.date]: compared as the triple (year, month, day). *)
Record date := mkDate { year : Z; month : Z; day : Z }.

Definition date_leb (a b : date) : bool :=
  (year a <? year b)
  || ((year a =? year b)
      && ((month a <? month b)
          || ((month a =? month b) && (day a <=? day b)))).

Definition date_le (a b : date) : Prop :=
  year a < year b
  \/ (year a = year b
      /\ (month a < month b \/ (month a = month b /\ day a <= day b))).

(** A pandas Timestamp: a calendar date and the nanoseconds elapsed
    since its midnight. *)
Record Timestamp := mkTimestamp { ts_date : date; ts_time : N }.

(** ** Series helpers *)

(** [Series.min()] and [Series.max()] of an integer column: NaN ([None])
    on an empty column. *)
Definition series_min (s : list Z) : option Z :=
  match s with
  | [] => None
  | x :: xs => Some (fold_left Z.min xs x)
  end.

Definition series_max (s : list Z) : option Z :=
  match s with
  | [] => None
  | x :: xs => Some (fold_left Z.max xs x)
  end.

(** [Series.unique()]: the distinct values in order of first appearance,
    NaN included. *)
Fixpoint unique (s : list cell) : list cell :=
  match s with
  | [] => []
  | x :: xs => x :: filter (fun y => negb (cell_eqb x y)) (unique xs)
  end.

(** [Series.isin(values)]: NaN matches NaN. *)
Definition isin (values : list cell) (x : cell) : bool :=
  existsb (cell_eqb x) values.

(** The values of a column that are not NaN. *)
Fixpoint dropna_values (s : list cell) : list string :=
  match s with
  | [] => []
  | Some x :: xs => x :: dropna_values xs
  | None :: xs => dropna_values xs
  end.

(** Two's-complement reduction to [w] bits, the effect of
    [astype('int8')] and the like on an integer. *)
Definition wrap (w : Z) (z : Z) : Z :=
  (z + 2 ^ (w - 1)) mod 2 ^ w - 2 ^ (w - 1).

(** A float64 that is not NaN: a finite value, or an infinity with its
    sign. *)
Inductive number := Finite (q : Q) | Infinite (negative : bool).

Definition in_int64 (z : Z) : bool := (- 2 ^ 63 <=? z) && (z <? 2 ^ 63).

(** ** The CSV and the loaded frame *)

Module Csv.
(** One line of [vacinacao_mar_2025--1.csv], as [read_csv] hands it
    over: every field still text, an empty field missing. *)
Record row := mkRow {
  dt_vacina : cell;
  tp_sexo_paciente : cell;
  no_raca_cor_paciente : cell;
  sg_uf_estabelecimento : cell;
  ds_vacina : cell;
  ds_vacina_fabricante : cell;
  nu_idade_paciente : cell
}.
End Csv.

(** One row of the frame [load_data] returns. *)
Record Row := mkRow {
  index : nat;
  dt_vacina : option Timestamp;
  tp_sexo_paciente : cell;
  no_raca_cor_paciente : cell;
  sg_uf_estabelecimento : cell;
  ds_vacina : cell;
  ds_vacina_fabricante : cell;
  nu_idade_paciente : Z;
  Dose : Z
}.

Definition DataFrame := list Row.

(** [read_csv] labels the lines with a RangeIndex. *)
Definition read_csv (lines : list Csv.row) : list (nat * Csv.row) :=
  combine (seq 0 (List.length lines)) lines.

Definition notna {A} (x : option A) : bool :=
  match x with Some _ => true | None => false end.

Definition fillna {A} (d : A) (x : option A) : A :=
  match x with Some v => v | None => d end.

(** The narrowing of [nu_idade_paciente] at the end of [load_data]: the
    first integer width that holds both extremes of the column, none
    when the column is empty or exceeds int32. *)
Definition downcast_width (ages : list Z) : option Z :=
  match series_max ages, series_min ages with
  | Some idade_max, Some idade_min =>
      if (idade_max <=? 127) && (idade_min >=? -128) then Some 8
      else if (idade_max <=? 32767) && (idade_min >=? -32768) then Some 16
      else if (idade_max <=? 2147483647) && (idade_min >=? -2147483648)
           then Some 32
      else None
  | _, _ => None
  end.

Definition set_idade (r : Row) (a : Z) : Row :=
  {| index := index r; dt_vacina := dt_vacina r;
     tp_sexo_paciente := tp_sexo_paciente r;
     no_raca_cor_paciente := no_raca_cor_paciente r;
     sg_uf_estabelecimento := sg_uf_estabelecimento r;
     ds_vacina := ds_vacina r;
     ds_vacina_fabricante := ds_vacina_fabricante r;
     nu_idade_paciente := a; Dose := Dose r |}.

Definition downcast (df : DataFrame) : DataFrame :=
  match downcast_width (map nu_idade_paciente df) with
  | Some w => map (fun r => set_idade r (wrap w (nu_idade_paciente r))) df
  | None => df
  end.

(** How [load_data] ends once the file is read: the cast of the age
    column raises, or the frame is returned. *)
Inductive Load :=
| IntCastingError
| Frame (df : DataFrame).

(** The frame of a load that returned one. *)
Definition loaded (l : Load) : DataFrame :=
  match l with
  | Frame df => df
  | IntCastingError => []
  end.

(** A column operation raises as soon as one of its values does. *)
Fixpoint all_or_raise {A B} (f : A -> option B) (l : list A)
    : option (list B) :=
  match l with
  | [] => Some []
  | x :: xs =>
      match f x, all_or_raise f xs with
      | Some y, Some ys => Some (y :: ys)
      | _, _ => None
      end
  end.

Section Loader.

(** [pd.to_datetime(_, format='%d/%m/%Y', errors='coerce')] on one
    cell: NaT when the text does not match the pattern. *)
Variable to_datetime : cell -> option Timestamp.

(** [pd.to_numeric(_, errors='coerce')] on one cell: NaN when the text
    is not a number. *)
Variable to_numeric : cell -> option number.

(** What the conversion to int64 leaves for a finite float outside
    int64, which the platform decides. *)
Variable cast_overflow : Q -> Z.

(** [astype(int)] on a float64 without NaN: truncation toward zero into
    int64; an infinity raises. *)
Definition astype_int (x : number) : option Z :=
  match x with
  | Finite q =>
      let z := Z.quot (Qnum q) (Zpos (Qden q)) in
      Some (if in_int64 z then z else cast_overflow q)
  | Infinite _ => None
  end.

(** [dropna(subset=['dt_vacina'])] after line 42: the labelled lines
    whose date is not NaT. *)
Definition dropna (ls : list (nat * Csv.row)) : list (nat * Csv.row) :=
  filter (fun l => notna (to_datetime (Csv.dt_vacina (snd l)))) ls.

(** The column assignments of [load_data] on one labelled line that was
    kept; nothing when the cast of its age raises. *)
Definition preprocess (l : nat * Csv.row) : option Row :=
  let (i, c) := l in
  match astype_int
          (fillna (Finite 0) (to_numeric (Csv.nu_idade_paciente c))) with
  | Some idade =>
      Some {| index := i;
              dt_vacina := to_datetime (Csv.dt_vacina c);
              tp_sexo_paciente := Csv.tp_sexo_paciente c;
              no_raca_cor_paciente := Csv.no_raca_cor_paciente c;
              sg_uf_estabelecimento := Csv.sg_uf_estabelecimento c;
              ds_vacina := Csv.ds_vacina c;
              ds_vacina_fabricante := Csv.ds_vacina_fabricante c;
              nu_idade_paciente := idade;
              Dose := 1 |}
  | None => None
  end.

Definition load_data (lines : list Csv.row) : Load :=
  match all_or_raise preprocess (dropna (read_csv lines)) with
  | Some df => Frame (downcast df)
  | None => IntCastingError
  end.

End Loader.

(** ** Categorical columns and grouped sums *)

(** Sorting text by code point, the order pandas gives the categories
    of a column turned into [category]. *)
Fixpoint insert_sorted (x : string) (l : list string) : list string :=
  match l with
  | [] => [x]
  | y :: ys => if String.leb x y then x :: l else y :: insert_sorted x ys
  end.

Definition sort_strings (l : list string) : list string :=
  fold_right insert_sorted [] l.

(** The categories [astype('category')] fixes for a column of [df]: its
    distinct values that are not NaN, sorted.  Row selection keeps the
    dtype, so every later view of [df] has the same categories. *)
Definition categories (col : Row -> cell) (df : DataFrame) : list string :=
  sort_strings (dropna_values (unique (map col df))).

(** The group keys of [groupby(col)]: rows with a NaN key belong to no
    group.  With [observed] unset every category has a group, an empty
    one included; with it set only the categories met in the view. *)
Definition group_keys (observed : bool) (cats : list string)
    (col : Row -> cell) (view : DataFrame) : list string :=
  if observed
  then filter (fun k => existsb (fun r => cell_eqb (col r) (Some k)) view) cats
  else cats.

(** [view.groupby(col)['Dose'].sum().reset_index()], one line per key
    in key order. *)
Definition group_sum (col : Row -> cell) (view : DataFrame) (k : string) : Z :=
  fold_right Z.add 0
    (map Dose (filter (fun r => cell_eqb (col r) (Some k)) view)).

Definition groupby_sum (keys : list string) (col : Row -> cell)
    (view : DataFrame) : list (string * Z) :=
  map (fun k => (k, group_sum col view k)) keys.

(** The share of one row, of key [c] and dose [d], in the totals of all
    the groups of [keys]. *)
Definition share (c : cell) (d : Z) (keys : list string) : Z :=
  fold_right Z.add 0
    (map (fun k => if cell_eqb c (Some k) then d else 0) keys).

(** [Series.nunique()]: NaN is not counted. *)
Definition nunique (s : list cell) : Z :=
  Z.of_nat (List.length (dropna_values (unique s))).

(** The total of the [Dose] column of a grouped table. *)
Definition sum_values (t : list (string * Z)) : Z :=
  fold_right Z.add 0 (map snd t).

(** ** The date stage *)

(** [(s.dt.date >= start_date) & (s.dt.date <= end_date)] on one value;
    a comparison with NaT is false. *)
Definition between_dates (start_date end_date : date)
    (t : option Timestamp) : bool :=
  match t with
  | Some ts => date_leb start_date (ts_date ts) && date_leb (ts_date ts) end_date
  | None => false
  end.

(** Lines 114-119: the mask is applied when [date_input] returned both
    end points, otherwise the whole frame is the base view. *)
Definition date_stage (df : DataFrame) (date_range : list date) : DataFrame :=
  match date_range with
  | [start_date; end_date] =>
      filter (fun r => between_dates start_date end_date (dt_vacina r)) df
  | _ => df
  end.

(** The age mask of line 164. *)
Definition between_idade (idade_range : Z * Z) (r : Row) : bool :=
  (nu_idade_paciente r >=? fst idade_range)
  && (nu_idade_paciente r <=? snd idade_range).

(** ** The figure shown for the total of doses *)

Module Fmt.

(** Binary64. *)
Definition prec : Z := 53.
Definition emax : Z := 1024.

(** [float(n)]. *)
Definition float_of_int (n : Z) : spec_float :=
  binary_normalize prec emax n 0 false.

(** An integer as the binary fraction [n * 2^0], exact at any size. *)
Definition exact_int (n : Z) : spec_float :=
  match n with
  | Z0 => S754_zero false
  | Zpos p => S754_finite false p 0
  | Zneg p => S754_finite true p 0
  end.

(** [a / b] on two Python integers: the exact quotient rounded once to
    the nearest double. *)
Definition truediv (a b : Z) : spec_float :=
  SFdiv prec emax (exact_int a) (exact_int b).

(** The integer nearest to [n / d], ties to the even one ([0 < d]). *)
Definition round_half_even (n d : Z) : Z :=
  let q := n / d in
  match (2 * (n mod d) ?= d) with
  | Lt => q
  | Gt => q + 1
  | Eq => if Z.even q then q else q + 1
  end.

(** The magnitude [m * 2^e] in units of [10^-k], correctly rounded:
    what the [.kf] presentation prints without its decimal point. *)
Definition scaled (k : Z) (m : positive) (e : Z) : Z :=
  if 0 <=? e then Zpos m * 2 ^ e * 10 ^ k
  else round_half_even (Zpos m * 10 ^ k) (2 ^ (- e)).

Definition digits (n : Z) : string :=
  NilZero.string_of_uint (N.to_uint (Z.to_N n)).

Definition two_digits (n : Z) : string :=
  if n <? 10 then "0" ++ digits n else digits n.

Definition sign (s : bool) : string := if s then "-" else "".

(** [format(x, '.2f')]. *)
Definition format_2f (x : spec_float) : string :=
  match x with
  | S754_zero s => sign s ++ "0.00"
  | S754_infinity s => sign s ++ "inf"
  | S754_nan => "nan"
  | S754_finite s m e =>
      let h := scaled 2 m e in
      sign s ++ digits (h / 100) ++ "." ++ two_digits (h mod 100)
  end.

(** The [,] option: a comma before every group of three digits,
    counted from the right.  [ds] holds the digits still to place,
    lowest first, and [k] those already in the current group. *)
Fixpoint commas (ds : list ascii) (k : nat) : list ascii :=
  match ds with
  | [] => []
  | d :: ds' =>
      match k with
      | 3%nat => ","%char :: d :: commas ds' 1
      | _ => d :: commas ds' (S k)
      end
  end.

Definition group_thousands (s : string) : string :=
  string_of_list_ascii
    (List.rev (commas (List.rev (list_ascii_of_string s)) 0)).

(** [format(x, ',.0f')]. *)
Definition format_comma_0f (x : spec_float) : string :=
  match x with
  | S754_zero s => sign s ++ "0"
  | S754_infinity s => sign s ++ "inf"
  | S754_nan => "nan"
  | S754_finite s m e => sign s ++ group_thousands (digits (scaled 0 m e))
  end.

End Fmt.

(** Line 181: the text of the "Total de Doses" metric. *)
Definition metric_total_doses (total_doses : Z) : string :=
  if total_doses <? 1000000
  then Fmt.format_comma_0f (Fmt.float_of_int total_doses)
  else Fmt.format_2f (Fmt.truediv total_doses 1000000) ++ " Mi".

(** ** Instances of the pandas functions taken as parameters *)

Module Text.

Definition is_digit (c : ascii) : bool :=
  let n := nat_of_ascii c in (48 <=? n)%nat && (n <=? 57)%nat.

Fixpoint number_from (acc : Z) (s : string) : option Z :=
  match s with
  | EmptyString => Some acc
  | String c s' =>
      if is_digit c
      then number_from (10 * acc + (Z.of_nat (nat_of_ascii c) - 48)) s'
      else None
  end.

(** The value of a non-empty run of decimal digits. *)
Definition number (s : string) : option Z :=
  match s with
  | EmptyString => None
  | _ => number_from 0 s
  end.

(** The fields of [s] between occurrences of [sep]. *)
Fixpoint split (sep : ascii) (s : string) : list string :=
  match s with
  | EmptyString => [EmptyString]
  | String c s' =>
      if Ascii.eqb c sep then EmptyString :: split sep s'
      else match split sep s' with
           | p :: ps => String c p :: ps
           | [] => [String c EmptyString]
           end
  end.

End Text.

Definition is_leap (y : Z) : bool :=
  ((y mod 4 =? 0) && negb (y mod 100 =? 0)) || (y mod 400 =? 0).

Definition days_in_month (y m : Z) : Z :=
  if m =? 2 then (if is_leap y then 29 else 28)
  else if (m =? 4) || (m =? 6) || (m =? 9) || (m =? 11) then 30
  else 31.

(** Day, month and year in digits between slashes, naming a day of the
    calendar; the time of day is midnight. *)
Definition to_datetime_dmY (c : cell) : option Timestamp :=
  match c with
  | None => None
  | Some s =>
      match Text.split "/" s with
      | [d; m; y] =>
          match Text.number d, Text.number m, Text.number y with
          | Some dd, Some mm, Some yy =>
              if (String.length d <=? 2)%nat && (String.length m <=? 2)%nat
                 && (String.length y =? 4)%nat
                 && (1 <=? yy) && (1 <=? mm) && (mm <=? 12)
                 && (1 <=? dd) && (dd <=? days_in_month yy mm)
              then Some {| ts_date := mkDate yy mm dd; ts_time := 0 |}
              else None
          | _, _, _ => None
          end
      | _ => None
      end
  end.

(** Decimal literals: an optional minus sign, digits, and optionally a
    point with more digits; [inf] and [-inf] are the infinities. *)
Definition to_numeric_decimal (c : cell) : option number :=
  match c with
  | None => None
  | Some "inf" => Some (Infinite false)
  | Some "-inf" => Some (Infinite true)
  | Some s =>
      let (neg, body) :=
        match s with
        | String "-" s' => (true, s')
        | _ => (false, s)
        end in
      let value :=
        match Text.split "." body with
        | [i] => option_map inject_Z (Text.number i)
        | [i; f] =>
            match Text.number i, Text.number f with
            | Some vi, Some vf =>
                let scale := 10 ^ Z.of_nat (String.length f) in
                Some (Qmake (vi * scale + vf) (Z.to_pos scale))
            | _, _ => None
            end
        | _ => None
        end in
      option_map (fun q => Finite (if neg then Qopp q else q)) value
  end.

(** The conversion of an out-of-range float as x86-64 does it. *)
Definition cast_overflow_x86 (q : Q) : Z := - 2 ^ 63.

(** A stable sort of a grouped table by [Dose], largest first. *)
Fixpoint insert_by_dose (x : string * Z) (t : list (string * Z))
    : list (string * Z) :=
  match t with
  | [] => [x]
  | y :: ys => if snd y <=? snd x then x :: t else y :: insert_by_dose x ys
  end.

Definition sort_by_dose (t : list (string * Z)) : list (string * Z) :=
  fold_right insert_by_dose [] t.

(** ** Reading a figure back *)

(** [s] is the decimal numeral of [v]: digits only, of value [v], with
    no zero in front of another digit. *)
Definition numeral (s : string) (v : Z) : Prop :=
  Text.number s = Some v
  /\ match s with
     | String c (String _ _) => Ascii.eqb c "0" = false
     | _ => True
     end.

(** ** The script body *)

(** What the sidebar widgets return on one run of the script. *)
Record Widgets := mkWidgets {
  date_range : list date;
  selected_sexo : list cell;
  selected_raca_cor : list cell;
  selected_uf_aplicacao : list cell;
  selected_tipo_vacina : list cell;
  idade_range : Z * Z
}.

(** What the sidebar offers: the options of the four multiselects and
    the bounds of the age slider, once the run got that far. *)
Record Sidebar := mkSidebar {
  options_sexo : list cell;
  options_raca_cor : list cell;
  options_uf_aplicacao : list cell;
  options_tipo_vacina : list cell;
  slider_idade : option (Z * Z)
}.

(** The figures and tables handed to the page. *)
Record Dashboard := mkDashboard {
  total_doses : Z;
  total_estados : Z;
  total_fabricantes : Z;
  metric_doses : string;
  df_uf_doses : list (string * Z);
  df_raca_doses : list (string * Z);
  df_sexo_doses : list (string * Z);
  df_fabricante_doses : list (string * Z)
}.

(** How a run ends: [int(nan)] raises ValueError, [st.stop()] after the
    warning is the empty result, otherwise the page is drawn. *)
Inductive Outcome :=
| ValueError
| EmptyResult
| Rendered (d : Dashboard).

(** [int(s.min())]: NaN has no integer. *)
Definition int_of_float (x : option Z) : option Z := x.

(** The views of the cascade, one per stage, each the previous one
    under the stage's mask. *)
Definition view_date (df : DataFrame) (ui : Widgets) : DataFrame :=
  date_stage df (date_range ui).
Definition view_sexo (df : DataFrame) (ui : Widgets) : DataFrame :=
  filter (fun r => isin (selected_sexo ui) (tp_sexo_paciente r))
    (view_date df ui).
Definition view_raca (df : DataFrame) (ui : Widgets) : DataFrame :=
  filter (fun r => isin (selected_raca_cor ui) (no_raca_cor_paciente r))
    (view_sexo df ui).
Definition view_uf (df : DataFrame) (ui : Widgets) : DataFrame :=
  filter (fun r => isin (selected_uf_aplicacao ui) (sg_uf_estabelecimento r))
    (view_raca df ui).
Definition view_vacina (df : DataFrame) (ui : Widgets) : DataFrame :=
  filter (fun r => isin (selected_tipo_vacina ui) (ds_vacina r))
    (view_uf df ui).
Definition view_idade (df : DataFrame) (ui : Widgets) : DataFrame :=
  filter (between_idade (idade_range ui)) (view_vacina df ui).

Section Script.

(** The [observed] default of [groupby], which differs between pandas
    releases. *)
Variable observed : bool.

(** [sort_values(by='Dose', ascending=False)]: the sorting kernel
    decides the order among equal totals. *)
Variable sort_values : list (string * Z) -> list (string * Z).

(** Lines 174-263 on a view that is not empty; [df] is the loaded
    frame, whose categories the view still carries. *)
Definition aggregate (df df_filtered : DataFrame) : Dashboard :=
  let total_doses := Z.of_nat (List.length df_filtered) in
  let total_estados := nunique (map sg_uf_estabelecimento df_filtered) in
  let total_fabricantes := nunique (map ds_vacina_fabricante df_filtered) in
  let grouped col :=
    groupby_sum (group_keys observed (categories col df) col df_filtered)
      col df_filtered in
  let df_uf_doses := sort_values (grouped sg_uf_estabelecimento) in
  let df_raca_doses := grouped no_raca_cor_paciente in
  let df_sexo_doses := grouped tp_sexo_paciente in
  let df_fabricante_doses :=
    firstn 10 (sort_values (grouped ds_vacina_fabricante)) in
  {| total_doses := total_doses;
     total_estados := total_estados;
     total_fabricantes := total_fabricantes;
     metric_doses := metric_total_doses total_doses;
     df_uf_doses := df_uf_doses;
     df_raca_doses := df_raca_doses;
     df_sexo_doses := df_sexo_doses;
     df_fabricante_doses := df_fabricante_doses |}.

(** Lines 113-170, the view threaded through [df_filtered] as in the
    script.  The result pairs what the sidebar showed with how the run
    went on. *)
Definition script (df : DataFrame) (ui : Widgets) : Sidebar * Outcome :=
  let df_filtered := date_stage df (date_range ui) in
  let opt_sexo := unique (map tp_sexo_paciente df_filtered) in
  let df_filtered :=
    filter (fun r => isin (selected_sexo ui) (tp_sexo_paciente r))
      df_filtered in
  let opt_raca := unique (map no_raca_cor_paciente df_filtered) in
  let df_filtered :=
    filter (fun r => isin (selected_raca_cor ui) (no_raca_cor_paciente r))
      df_filtered in
  let opt_uf := unique (map sg_uf_estabelecimento df_filtered) in
  let df_filtered :=
    filter (fun r => isin (selected_uf_aplicacao ui) (sg_uf_estabelecimento r))
      df_filtered in
  let opt_vacina := unique (map ds_vacina df_filtered) in
  let df_filtered :=
    filter (fun r => isin (selected_tipo_vacina ui) (ds_vacina r))
      df_filtered in
  let sidebar slider :=
    {| options_sexo := opt_sexo; options_raca_cor := opt_raca;
       options_uf_aplicacao := opt_uf; options_tipo_vacina := opt_vacina;
       slider_idade := slider |} in
  match int_of_float (series_min (map nu_idade_paciente df_filtered)),
        int_of_float (series_max (map nu_idade_paciente df_filtered)) with
  | Some min_idade_df, Some max_idade_df =>
      let df_filtered :=
        filter (between_idade (idade_range ui)) df_filtered in
      (sidebar (Some (min_idade_df, max_idade_df)),
       match df_filtered with
       | [] => EmptyResult
       | _ :: _ => Rendered (aggregate df df_filtered)
       end)
  | _, _ => (sidebar None, ValueError)
  end.

End Script.

(** ** The cascade as the specification words it *)

(** The four categorical dimensions of the sidebar. *)
Inductive dimension := Sexo | RacaCor | UfAplicacao | TipoVacina.

Definition column (D : dimension) : Row -> cell :=
  match D with
  | Sexo => tp_sexo_paciente
  | RacaCor => no_raca_cor_paciente
  | UfAplicacao => sg_uf_estabelecimento
  | TipoVacina => ds_vacina
  end.

Definition selection (D : dimension) : Widgets -> list cell :=
  match D with
  | Sexo => selected_sexo
  | RacaCor => selected_raca_cor
  | UfAplicacao => selected_uf_aplicacao
  | TipoVacina => selected_tipo_vacina
  end.

Definition offered (D : dimension) : Sidebar -> list cell :=
  match D with
  | Sexo => options_sexo
  | RacaCor => options_raca_cor
  | UfAplicacao => options_uf_aplicacao
  | TipoVacina => options_tipo_vacina
  end.

Inductive stage := DateStage | Categorical (D : dimension).

Definition stage_eqb (a b : stage) : bool :=
  match a, b with
  | DateStage, DateStage => true
  | Categorical Sexo, Categorical Sexo => true
  | Categorical RacaCor, Categorical RacaCor => true
  | Categorical UfAplicacao, Categorical UfAplicacao => true
  | Categorical TipoVacina, Categorical TipoVacina => true
  | _, _ => false
  end.

(** The fixed order of the stages that come before the age stage. *)
Definition cascade : list stage :=
  [DateStage; Categorical Sexo; Categorical RacaCor;
   Categorical UfAplicacao; Categorical TipoVacina].

Definition apply_stage (ui : Widgets) (view : DataFrame) (st : stage)
    : DataFrame :=
  match st with
  | DateStage => date_stage view (date_range ui)
  | Categorical D => filter (fun r => isin (selection D ui) (column D r)) view
  end.

(** The stages strictly preceding a stage in a cascade. *)
Fixpoint stages_before (st : stage) (c : list stage) : list stage :=
  match c with
  | [] => []
  | s :: c' => if stage_eqb s st then [] else s :: stages_before st c'
  end.

(** The view produced by exactly the stages strictly preceding [D]. *)
Definition view_before (D : dimension) (df : DataFrame) (ui : Widgets)
    : DataFrame :=
  fold_left (apply_stage ui) (stages_before (Categorical D) cascade) df.

(** The view once [D]'s own stage has been applied as well. *)
Definition view_after (D : dimension) (df : DataFrame) (ui : Widgets)
    : DataFrame :=
  apply_stage ui (view_before D df ui) (Categorical D).

Definition distinct_values (D : dimension) (view : DataFrame) : list cell :=
  unique (map (column D) view).

(** ** Sample data *)

Definition line (dt sexo raca uf vacina fabricante idade : cell) : Csv.row :=
  {| Csv.dt_vacina := dt; Csv.tp_sexo_paciente := sexo;
     Csv.no_raca_cor_paciente := raca; Csv.sg_uf_estabelecimento := uf;
     Csv.ds_vacina := vacina; Csv.ds_vacina_fabricante := fabricante;
     Csv.nu_idade_paciente := idade |}.

Definition sample_lines : list Csv.row :=
  [ line (Some "01/03/2025") (Some "F") (Some "PARDA") (Some "SP")
         (Some "COVID-19") (Some "PFIZER") (Some "34");
    line (Some "15/03/2025") (Some "M") (Some "BRANCA") (Some "RJ")
         (Some "INFLUENZA") (Some "BUTANTAN") (Some "n/d");
    line (Some "31/03/2025") (Some "F") (Some "PRETA") (Some "SP")
         (Some "COVID-19") (Some "PFIZER") (Some "7");
    line (Some "31/02/2025") (Some "M") (Some "PARDA") (Some "MG")
         (Some "INFLUENZA") (Some "BUTANTAN") (Some "abc");
    line (Some "20/03/2025") (Some "M") (Some "AMARELA") None
         (Some "HEPATITE B") None (Some "51") ].

Definition sample_df : DataFrame :=
  loaded (load_data to_datetime_dmY to_numeric_decimal cast_overflow_x86
            sample_lines).

(** Three doses on the first, the fifteenth and the last day of March. *)
Definition march_lines : list Csv.row :=
  [ line (Some "01/03/2025") (Some "F") (Some "PARDA") (Some "SP")
         (Some "COVID-19") (Some "PFIZER") (Some "34");
    line (Some "15/03/2025") (Some "M") (Some "BRANCA") (Some "RJ")
         (Some "INFLUENZA") (Some "BUTANTAN") (Some "62");
    line (Some "31/03/2025") (Some "F") (Some "PRETA") (Some "SP")
         (Some "COVID-19") (Some "PFIZER") (Some "7") ].

Definition march_df : DataFrame :=
  loaded (load_data to_datetime_dmY to_numeric_decimal cast_overflow_x86
            march_lines).

(** Every option of every multiselect chosen, as on the first run. *)
Definition select_all (df : DataFrame) (dates : list date)
    (idades : Z * Z) : Widgets :=
  let v0 := date_stage df dates in
  let s1 := unique (map tp_sexo_paciente v0) in
  let v1 := filter (fun r => isin s1 (tp_sexo_paciente r)) v0 in
  let s2 := unique (map no_raca_cor_paciente v1) in
  let v2 := filter (fun r => isin s2 (no_raca_cor_paciente r)) v1 in
  let s3 := unique (map sg_uf_estabelecimento v2) in
  let v3 := filter (fun r => isin s3 (sg_uf_estabelecimento r)) v2 in
  let s4 := unique (map ds_vacina v3) in
  {| date_range := dates; selected_sexo := s1; selected_raca_cor := s2;
     selected_uf_aplicacao := s3; selected_tipo_vacina := s4;
     idade_range := idades |}.

Definition march_2025 : list date :=
  [mkDate 2025 3 1; mkDate 2025 3 31].

(** The first run on the sample: everything selected. *)
Definition ui_first_run : Widgets := select_all sample_df march_2025 (0, 51).

(** The same with no sex selected. *)
Definition ui_no_sexo : Widgets :=
  {| date_range := march_2025; selected_sexo := [];
     selected_raca_cor := selected_raca_cor ui_first_run;
     selected_uf_aplicacao := selected_uf_aplicacao ui_first_run;
     selected_tipo_vacina := selected_tipo_vacina ui_first_run;
     idade_range := (0, 51) |}.

(** Only the two states that are named. *)
Definition ui_named_uf : Widgets :=
  {| date_range := march_2025;
     selected_sexo := selected_sexo ui_first_run;
     selected_raca_cor := selected_raca_cor ui_first_run;
     selected_uf_aplicacao := [Some "SP"; Some "RJ"];
     selected_tipo_vacina := selected_tipo_vacina ui_first_run;
     idade_range := (0, 51) |}.

(** A single date picked in the date input. *)
Definition ui_one_date : Widgets :=
  {| date_range := [mkDate 2025 3 15];
     selected_sexo := [Some "F"];
     selected_raca_cor := selected_raca_cor ui_first_run;
     selected_uf_aplicacao := selected_uf_aplicacao ui_first_run;
     selected_tipo_vacina := selected_tipo_vacina ui_first_run;
     idade_range := (0, 51) |}.

(** ** The bounds of the date input *)

Definition date_eqb (a b : date) : bool :=
  (year a =? year b) && (month a =? month b) && (day a =? day b).

(** Timestamps compare as instants: by date, then by time of day. *)
Definition ts_leb (a b : Timestamp) : bool :=
  if date_eqb (ts_date a) (ts_date b)
  then (ts_time a <=? ts_time b)%N
  else date_leb (ts_date a) (ts_date b).

Definition ts_min (a b : Timestamp) : Timestamp := if ts_leb a b then a else b.
Definition ts_max (a b : Timestamp) : Timestamp := if ts_leb a b then b else a.

(** The timestamps of a column that are not NaT. *)
Fixpoint dropnat (s : list (option Timestamp)) : list Timestamp :=
  match s with
  | [] => []
  | Some t :: s' => t :: dropnat s'
  | None :: s' => dropnat s'
  end.

(** [Series.min()] and [Series.max()] of a datetime column: NaT is
    skipped, and is the result when nothing else is there. *)
Definition datetime_min (s : list (option Timestamp)) : option Timestamp :=
  match dropnat s with
  | [] => None
  | t :: ts => Some (fold_left ts_min ts t)
  end.

Definition datetime_max (s : list (option Timestamp)) : option Timestamp :=
  match dropnat s with
  | [] => None
  | t :: ts => Some (fold_left ts_max ts t)
  end.

(** What lines 97-104 leave for the date input: its two limits, which
    are also its initial value, and whether the warning was shown.
    [NaT.date()] is NaT. *)
Record DateBounds := mkDateBounds {
  min_date : option date;
  max_date : option date;
  warned : bool
}.

Definition date_input_bounds (df : DataFrame) : DateBounds :=
  match df with
  | _ :: _ =>
      {| min_date := option_map ts_date (datetime_min (map dt_vacina df));
         max_date := option_map ts_date (datetime_max (map dt_vacina df));
         warned := false |}
  | [] =>
      {| min_date := Some (mkDate 2024 1 1);
         max_date := Some (mkDate 2025 12 31);
         warned := true |}
  end.

(** ** The cascade as one mask *)

(** The date mask of a run: none when the date input gave no pair. *)
Definition date_mask (date_range : list date) (r : Row) : bool :=
  match date_range with
  | [start_date; end_date] => between_dates start_date end_date (dt_vacina r)
  | _ => true
  end.

(** The six masks of lines 116-164 taken together. *)
Definition passes (ui : Widgets) (r : Row) : bool :=
  date_mask (date_range ui) r
  && isin (selected_sexo ui) (tp_sexo_paciente r)
  && isin (selected_raca_cor ui) (no_raca_cor_paciente r)
  && isin (selected_uf_aplicacao ui) (sg_uf_estabelecimento r)
  && isin (selected_tipo_vacina ui) (ds_vacina r)
  && between_idade (idade_range ui) r.

(** The rows of a view that have no value in a column. *)
Definition missing (col : Row -> cell) (view : DataFrame) : Z :=
  Z.of_nat (List.length (filter (fun r => negb (notna (col r))) view)).

(** More sample data: an age interval between the ages of the sample,
    and a file in which no date parses. *)
Definition ui_age_gap : Widgets :=
  {| date_range := march_2025;
     selected_sexo := selected_sexo ui_first_run;
     selected_raca_cor := selected_raca_cor ui_first_run;
     selected_uf_aplicacao := selected_uf_aplicacao ui_first_run;
     selected_tipo_vacina := selected_tipo_vacina ui_first_run;
     idade_range := (10, 20) |}.

(** A file whose second line is dated and has the age [inf]. *)
Definition infinite_age_lines : list Csv.row :=
  [ line (Some "01/03/2025") (Some "F") (Some "PARDA") (Some "SP")
         (Some "COVID-19") (Some "PFIZER") (Some "abc");
    line (Some "15/03/2025") (Some "M") (Some "BRANCA") (Some "RJ")
         (Some "INFLUENZA") (Some "BUTANTAN") (Some "inf") ].

Definition undated_lines : list Csv.row :=
  [ line (Some "2025-03-01") (Some "F") (Some "PARDA") (Some "SP")
         (Some "COVID-19") (Some "PFIZER") (Some "34");
    line None (Some "M") (Some "BRANCA") (Some "RJ")
         (Some "INFLUENZA") (Some "BUTANTAN") (Some "62") ].

(** * Properties *)

(** ** Cells, series and dates *)

Lemma cell_eqb_eq (a b : cell) : cell_eqb a b = true <-> a = b.
Proof.
  destruct a as [x|], b as [y|]; simpl; try (split; congruence).
  rewrite String.eqb_eq. split; congruence.
Qed.

Lemma cell_eqb_refl (a : cell) : cell_eqb a a = true.
Proof. now apply cell_eqb_eq. Qed.

Lemma cell_eqb_neq (a b : cell) : cell_eqb a b = false <-> a <> b.
Proof.
  rewrite <- cell_eqb_eq. destruct (cell_eqb a b); split; congruence.
Qed.

Lemma isin_In (values : list cell) (x : cell) :
  isin values x = true <-> In x values.
Proof.
  unfold isin. rewrite existsb_exists. split.
  - intros (y & Hy & E). apply cell_eqb_eq in E. now subst.
  - intros H. exists x. split; [assumption | apply cell_eqb_refl].
Qed.

Lemma isin_nil (x : cell) : isin [] x = false.
Proof. reflexivity. Qed.

Lemma unique_In (s : list cell) (x : cell) : In x (unique s) <-> In x s.
Proof.
  induction s as [|y s IH]; simpl; [tauto|].
  rewrite filter_In, IH, negb_true_iff, cell_eqb_neq.
  destruct (cell_eqb y x) eqn:E.
  - apply cell_eqb_eq in E. tauto.
  - apply cell_eqb_neq in E. tauto.
Qed.

Lemma unique_NoDup (s : list cell) : NoDup (unique s).
Proof.
  induction s as [|y s IH]; simpl; constructor.
  - rewrite filter_In, negb_true_iff, cell_eqb_neq. tauto.
  - now apply NoDup_filter.
Qed.

Lemma dropna_values_In (s : list cell) (k : string) :
  In k (dropna_values s) <-> In (Some k) s.
Proof.
  induction s as [|[y|] s IH]; simpl; [tauto| |].
  - rewrite IH. split; intros [H|H]; auto; left; congruence.
  - rewrite IH. split; [auto | intros [H|H]; [discriminate | assumption]].
Qed.

Lemma dropna_values_NoDup (s : list cell) :
  NoDup s -> NoDup (dropna_values s).
Proof.
  induction 1 as [|[y|] s Hn Hs IH]; simpl; try constructor; auto.
  now rewrite dropna_values_In.
Qed.

Lemma series_min_None (s : list Z) : series_min s = None <-> s = [].
Proof. destruct s; simpl; split; congruence. Qed.

Lemma series_max_None (s : list Z) : series_max s = None <-> s = [].
Proof. destruct s; simpl; split; congruence. Qed.

Lemma fold_min_bounds (xs : list Z) (x : Z) :
  fold_left Z.min xs x <= x /\ Forall (fun y => fold_left Z.min xs x <= y) xs.
Proof.
  revert x. induction xs as [|y xs IH]; intros x; simpl.
  - split; [lia | constructor].
  - destruct (IH (Z.min x y)) as [H1 H2]. split; [lia|].
    constructor; [lia | assumption].
Qed.

Lemma fold_max_bounds (xs : list Z) (x : Z) :
  x <= fold_left Z.max xs x /\ Forall (fun y => y <= fold_left Z.max xs x) xs.
Proof.
  revert x. induction xs as [|y xs IH]; intros x; simpl.
  - split; [lia | constructor].
  - destruct (IH (Z.max x y)) as [H1 H2]. split; [lia|].
    constructor; [lia | assumption].
Qed.

Lemma series_min_le (s : list Z) (m : Z) :
  series_min s = Some m -> Forall (fun y => m <= y) s.
Proof.
  destruct s as [|x xs]; simpl; [discriminate|].
  intros [= <-]. destruct (fold_min_bounds xs x). now constructor.
Qed.

Lemma series_max_ge (s : list Z) (m : Z) :
  series_max s = Some m -> Forall (fun y => y <= m) s.
Proof.
  destruct s as [|x xs]; simpl; [discriminate|].
  intros [= <-]. destruct (fold_max_bounds xs x). now constructor.
Qed.

Lemma date_leb_le (a b : date) : date_leb a b = true <-> date_le a b.
Proof.
  unfold date_leb, date_le.
  rewrite orb_true_iff, andb_true_iff, orb_true_iff, andb_true_iff.
  rewrite !Z.ltb_lt, !Z.eqb_eq, Z.leb_le. tauto.
Qed.

Lemma between_dates_spec (s e : date) (t : option Timestamp) :
  between_dates s e t = true <->
  exists ts, t = Some ts /\ date_le s (ts_date ts) /\ date_le (ts_date ts) e.
Proof.
  destruct t as [ts|]; simpl.
  - rewrite andb_true_iff, !date_leb_le. split.
    + intros H. now exists ts.
    + intros (ts' & [= <-] & H). exact H.
  - split; [discriminate | intros (ts & E & _); discriminate].
Qed.

(** ** Narrowing the age column keeps the ages *)

Lemma wrap_id (w z : Z) :
  0 < w -> - 2 ^ (w - 1) <= z < 2 ^ (w - 1) -> wrap w z = z.
Proof.
  intros Hw Hz. unfold wrap.
  assert (E : 2 ^ w = 2 * 2 ^ (w - 1)).
  { replace w with (Z.succ (w - 1)) at 1 by lia. apply Z.pow_succ_r. lia. }
  rewrite Z.mod_small; lia.
Qed.

Lemma downcast_width_fits (ages : list Z) (w : Z) :
  downcast_width ages = Some w ->
  0 < w /\ Forall (fun a => - 2 ^ (w - 1) <= a < 2 ^ (w - 1)) ages.
Proof.
  unfold downcast_width.
  destruct (series_max ages) as [mx|] eqn:Emx; [|discriminate].
  destruct (series_min ages) as [mn|] eqn:Emn; [|discriminate].
  apply series_max_ge in Emx. apply series_min_le in Emn.
  assert (Hall : forall lo hi, mx <= hi -> lo <= mn ->
            Forall (fun a => lo <= a < hi + 1) ages).
  { intros lo hi H1 H2. rewrite Forall_forall in *. intros a Ha.
    specialize (Emx a Ha). specialize (Emn a Ha). simpl in *. lia. }
  destruct ((mx <=? 127) && (mn >=? -128)) eqn:E8.
  { intros [= <-]. apply andb_true_iff in E8 as [H1 H2].
    split; [lia|]. apply (Hall (-128) 127); lia. }
  destruct ((mx <=? 32767) && (mn >=? -32768)) eqn:E16.
  { intros [= <-]. apply andb_true_iff in E16 as [H1 H2].
    split; [lia|]. apply (Hall (-32768) 32767); lia. }
  destruct ((mx <=? 2147483647) && (mn >=? -2147483648)) eqn:E32.
  { intros [= <-]. apply andb_true_iff in E32 as [H1 H2].
    split; [lia|]. apply (Hall (-2147483648) 2147483647); lia. }
  discriminate.
Qed.

Lemma set_idade_same (r : Row) : set_idade r (nu_idade_paciente r) = r.
Proof. now destruct r. Qed.

(** The integer type chosen for the ages holds every one of them: the
    frame is the same after the narrowing. *)
Lemma downcast_id (df : DataFrame) : downcast df = df.
Proof.
  unfold downcast.
  destruct (downcast_width (map nu_idade_paciente df)) as [w|] eqn:E;
    [|reflexivity].
  apply downcast_width_fits in E as [Hw Hall].
  rewrite Forall_map in Hall.
  induction Hall as [|r df Hr Hall IH]; simpl; [reflexivity|].
  rewrite wrap_id, set_idade_same, IH by assumption. reflexivity.
Qed.

(** ** The views of the cascade *)

Lemma date_stage_incl (df : DataFrame) (dr : list date) :
  incl (date_stage df dr) df.
Proof.
  unfold date_stage.
  destruct dr as [|s [|e [|x dr]]]; try apply incl_refl.
  apply incl_filter.
Qed.

Lemma view_date_incl df ui : incl (view_date df ui) df.
Proof. apply date_stage_incl. Qed.

Lemma view_sexo_incl df ui : incl (view_sexo df ui) (view_date df ui).
Proof. apply incl_filter. Qed.

Lemma view_raca_incl df ui : incl (view_raca df ui) (view_sexo df ui).
Proof. apply incl_filter. Qed.

Lemma view_uf_incl df ui : incl (view_uf df ui) (view_raca df ui).
Proof. apply incl_filter. Qed.

Lemma view_vacina_incl df ui : incl (view_vacina df ui) (view_uf df ui).
Proof. apply incl_filter. Qed.

Lemma view_idade_incl df ui : incl (view_idade df ui) (view_vacina df ui).
Proof. apply incl_filter. Qed.

Lemma view_sexo_incl_df df ui : incl (view_sexo df ui) df.
Proof. eapply incl_tran; [apply view_sexo_incl | apply view_date_incl]. Qed.

Lemma view_raca_incl_df df ui : incl (view_raca df ui) df.
Proof. eapply incl_tran; [apply view_raca_incl | apply view_sexo_incl_df]. Qed.

Lemma view_uf_incl_df df ui : incl (view_uf df ui) df.
Proof. eapply incl_tran; [apply view_uf_incl | apply view_raca_incl_df]. Qed.

Lemma view_vacina_incl_df df ui : incl (view_vacina df ui) df.
Proof. eapply incl_tran; [apply view_vacina_incl | apply view_uf_incl_df]. Qed.

Lemma view_idade_incl_df df ui : incl (view_idade df ui) df.
Proof.
  eapply incl_tran; [apply view_idade_incl | apply view_vacina_incl_df].
Qed.

(** ** The loader *)

Lemma combine_seq_In {A} (l : list A) (s i : nat) (x : A) :
  In (i, x) (combine (seq s (List.length l)) l) <->
  (s <= i)%nat /\ nth_error l (i - s) = Some x.
Proof.
  revert s. induction l as [|y l IH]; intros s; simpl.
  - split; [tauto|]. intros [_ H]. now destruct (i - s)%nat.
  - rewrite IH. split.
    + intros [[= <- <-]|[H1 H2]].
      * split; [lia|]. now rewrite Nat.sub_diag.
      * split; [lia|]. replace (i - s)%nat with (S (i - S s)) by lia.
        exact H2.
    + intros [H1 H2]. destruct (i - s)%nat as [|n] eqn:E.
      * left. injection H2 as <-. f_equal. lia.
      * right. split; [lia|]. replace (i - S s)%nat with n by lia.
        exact H2.
Qed.

Lemma read_csv_In (lines : list Csv.row) (i : nat) (c : Csv.row) :
  In (i, c) (read_csv lines) <-> nth_error lines i = Some c.
Proof.
  unfold read_csv. rewrite combine_seq_In, Nat.sub_0_r.
  split; [tauto | intros H; split; [lia | exact H]].
Qed.

Lemma all_or_raise_In {A B} (f : A -> option B) (l : list A) (ys : list B) :
  all_or_raise f l = Some ys ->
  forall y, In y ys <-> exists x, In x l /\ f x = Some y.
Proof.
  revert ys. induction l as [|x l IH]; simpl; intros ys H y.
  - injection H as <-. simpl. split; [tauto | intros (x & [] & _)].
  - destruct (f x) as [y0|] eqn:Ex; [|discriminate].
    destruct (all_or_raise f l) as [ys0|]; [|discriminate].
    injection H as <-. simpl. rewrite (IH ys0 eq_refl y). split.
    + intros [<-|(x' & Hx' & E)]; [exists x | exists x']; auto.
    + intros (x' & [<-|Hx'] & E); [left; congruence | right; eauto].
Qed.

Lemma all_or_raise_None {A B} (f : A -> option B) (l : list A) :
  all_or_raise f l = None <-> exists x, In x l /\ f x = None.
Proof.
  induction l as [|x l IH]; simpl.
  - split; [discriminate | intros (x & [] & _)].
  - destruct (f x) as [y|] eqn:Ex.
    + destruct (all_or_raise f l) as [ys|].
      * split; [discriminate|]. intros (x' & [<-|Hx'] & E); [congruence|].
        pose proof (proj2 IH (ex_intro _ x' (conj Hx' E))) as N.
        discriminate N.
      * split; [|reflexivity]. intros _.
        destruct (proj1 IH eq_refl) as (x' & Hx' & E). eauto.
    + split; [|reflexivity]. intros _. exists x. auto.
Qed.

Lemma all_or_raise_map {A B C} (f : A -> option B) (g : B -> C) (h : A -> C)
    (l : list A) (ys : list B) :
  (forall x y, f x = Some y -> g y = h x) ->
  all_or_raise f l = Some ys -> map g ys = map h l.
Proof.
  intros Hfg. revert ys. induction l as [|x l IH]; simpl; intros ys H.
  - now injection H as <-.
  - destruct (f x) as [y0|] eqn:Ex; [|discriminate].
    destruct (all_or_raise f l) as [ys0|]; [|discriminate].
    injection H as <-. simpl. now rewrite (Hfg x y0 Ex), (IH ys0 eq_refl).
Qed.

Section LoaderFacts.

Variable to_datetime : cell -> option Timestamp.
Variable to_numeric : cell -> option number.
Variable cast_overflow : Q -> Z.

Local Abbreviation prep := (preprocess to_datetime to_numeric cast_overflow).
Local Abbreviation load := (load_data to_datetime to_numeric cast_overflow).
Local Abbreviation dated c := (notna (to_datetime (Csv.dt_vacina c))).

Lemma preprocess_fields (l : nat * Csv.row) (r : Row) :
  prep l = Some r ->
  index r = fst l
  /\ dt_vacina r = to_datetime (Csv.dt_vacina (snd l))
  /\ tp_sexo_paciente r = Csv.tp_sexo_paciente (snd l)
  /\ Dose r = 1.
Proof.
  destruct l as [i c]. unfold preprocess.
  destruct (astype_int cast_overflow
              (fillna (Finite 0) (to_numeric (Csv.nu_idade_paciente c))));
    [|discriminate].
  intros [= <-]. simpl. auto.
Qed.

Lemma preprocess_raises (l : nat * Csv.row) :
  prep l = None <->
  exists s, to_numeric (Csv.nu_idade_paciente (snd l)) = Some (Infinite s).
Proof.
  destruct l as [i c]. unfold preprocess. simpl snd.
  destruct (to_numeric (Csv.nu_idade_paciente c)) as [[q|s]|]; simpl.
  - split; [discriminate | intros (s & [=])].
  - split; [now exists s | reflexivity].
  - split; [discriminate | intros (s & [=])].
Qed.

Lemma load_data_frame (lines : list Csv.row) (df : DataFrame) :
  load lines = Frame df <->
  all_or_raise prep (dropna to_datetime (read_csv lines)) = Some df.
Proof.
  unfold load_data.
  destruct (all_or_raise prep (dropna to_datetime (read_csv lines)));
    [rewrite downcast_id; split; intros [= ->]; reflexivity
    | split; discriminate].
Qed.

Lemma load_data_In (lines : list Csv.row) (df : DataFrame) (r : Row) :
  load lines = Frame df ->
  (In r df <->
   exists i c ts,
     nth_error lines i = Some c
     /\ to_datetime (Csv.dt_vacina c) = Some ts
     /\ prep (i, c) = Some r).
Proof.
  intros Hload. apply load_data_frame in Hload.
  rewrite (all_or_raise_In _ _ _ Hload r). unfold dropna. split.
  - intros ([i c] & Hin & Hr). apply filter_In in Hin as [Hin Hd].
    apply read_csv_In in Hin. simpl in Hd.
    destruct (to_datetime (Csv.dt_vacina c)) as [ts|] eqn:E; [|discriminate].
    now exists i, c, ts.
  - intros (i & c & ts & Hn & Hd & Hr). exists (i, c). split; [|exact Hr].
    apply filter_In. split; [now apply read_csv_In|]. simpl. now rewrite Hd.
Qed.

Lemma load_data_dose (lines : list Csv.row) (df : DataFrame) (r : Row) :
  load lines = Frame df -> In r df -> Dose r = 1.
Proof.
  intros Hload Hr. apply (load_data_In lines df r Hload) in Hr
    as (i & c & ts & _ & _ & Hr).
  now apply preprocess_fields in Hr.
Qed.

(** The load raises exactly when a line that has a date has an infinite
    age. *)
Lemma load_data_raises (lines : list Csv.row) :
  load lines = IntCastingError <->
  exists i c s,
    nth_error lines i = Some c
    /\ dated c = true
    /\ to_numeric (Csv.nu_idade_paciente c) = Some (Infinite s).
Proof.
  unfold load_data.
  destruct (all_or_raise prep (dropna to_datetime (read_csv lines)))
    as [df|] eqn:E.
  - split; [discriminate|]. intros (i & c & s & Hn & Hd & Hs). exfalso.
    assert (N : all_or_raise prep (dropna to_datetime (read_csv lines)) = None).
    { apply all_or_raise_None. exists (i, c). split.
      - apply filter_In. split; [now apply read_csv_In | exact Hd].
      - apply preprocess_raises. now exists s. }
    congruence.
  - split; [|reflexivity]. intros _.
    apply all_or_raise_None in E as ([i c] & Hin & Hr).
    apply filter_In in Hin as [Hin Hd]. apply read_csv_In in Hin.
    apply preprocess_raises in Hr as (s & Hs). now exists i, c, s.
Qed.

(** C6.  Every row of the frame [load_data] returns has a date that is
    not NaT; a line whose date text [to_datetime] rejects leaves no row
    under its label; and every view of the cascade, the final one
    included, holds rows of the loaded frame only. *)
Theorem load_data_dates_valid (lines : list Csv.row) (df : DataFrame) :
  load lines = Frame df ->
  (forall r, In r df -> exists ts, dt_vacina r = Some ts)
  /\ (forall i c,
        nth_error lines i = Some c ->
        to_datetime (Csv.dt_vacina c) = None ->
        ~ In i (map index df))
  /\ (forall ui r,
        In r (view_date df ui)
        \/ In r (view_sexo df ui)
        \/ In r (view_raca df ui)
        \/ In r (view_uf df ui)
        \/ In r (view_vacina df ui)
        \/ In r (view_idade df ui) ->
        In r df /\ exists ts, dt_vacina r = Some ts).
Proof.
  intros Hload.
  assert (Hvalid : forall r, In r df -> exists ts, dt_vacina r = Some ts).
  { intros r Hr. apply (load_data_In lines df r Hload) in Hr
      as (i & c & ts & _ & Hd & Hr).
    apply preprocess_fields in Hr as (_ & E & _). simpl in E.
    exists ts. congruence. }
  split; [exact Hvalid|]. split.
  - intros i c Hn Hd Hin. apply in_map_iff in Hin as (r & Hi & Hr).
    apply (load_data_In lines df r Hload) in Hr
      as (j & c' & ts & Hn' & Hd' & Hr).
    apply preprocess_fields in Hr as (Ei & _). simpl in Ei.
    assert (j = i) by congruence. subst j. congruence.
  - intros ui r H.
    assert (Hin : In r df).
    { destruct H as [H|[H|[H|[H|[H|H]]]]]; revert H;
        [ apply view_date_incl | apply view_sexo_incl_df
        | apply view_raca_incl_df | apply view_uf_incl_df
        | apply view_vacina_incl_df | apply view_idade_incl_df ]. }
    split; [exact Hin | now apply Hvalid].
Qed.

(** C7, amended.  In a file none of whose dated lines has an infinite
    age, the load returns a frame, and a line whose date parses and
    whose age text [to_numeric] rejects is in that frame, under its
    label, with age 0, and the age mask of the interval [0, 0] keeps
    it. *)
Theorem age_coercion (lines : list Csv.row) (i : nat) (c : Csv.row)
    (ts : Timestamp) :
  (forall j c' s,
     nth_error lines j = Some c' ->
     dated c' = true ->
     to_numeric (Csv.nu_idade_paciente c') <> Some (Infinite s)) ->
  nth_error lines i = Some c ->
  to_datetime (Csv.dt_vacina c) = Some ts ->
  to_numeric (Csv.nu_idade_paciente c) = None ->
  exists df r,
    load lines = Frame df
    /\ In r df
    /\ index r = i
    /\ tp_sexo_paciente r = Csv.tp_sexo_paciente c
    /\ nu_idade_paciente r = 0
    /\ In r (filter (between_idade (0, 0)) df).
Proof.
  intros Hfinite Hn Hd Ha.
  destruct (load lines) as [|df] eqn:Hload.
  { exfalso. apply load_data_raises in Hload as (j & c' & s & Hn' & Hd' & Hs).
    now apply (Hfinite j c' s). }
  assert (Hprep : exists r, prep (i, c) = Some r /\ nu_idade_paciente r = 0).
  { unfold preprocess. rewrite Ha. simpl. eexists. split; reflexivity. }
  destruct Hprep as (r & Hr & Hage).
  assert (Hin : In r df).
  { apply (load_data_In lines df r Hload). now exists i, c, ts. }
  exists df, r. split; [reflexivity|]. split; [exact Hin|].
  apply preprocess_fields in Hr as Hf. destruct Hf as (Ei & _ & Es & _).
  repeat split; try assumption.
  apply filter_In. split; [assumption|].
  unfold between_idade. now rewrite Hage.
Qed.

End LoaderFacts.

(** ** Categories, group keys and grouped sums *)

Lemma insert_sorted_perm (x : string) (l : list string) :
  Permutation (x :: l) (insert_sorted x l).
Proof.
  induction l as [|y l IH]; simpl; [reflexivity|].
  destruct (String.leb x y); [reflexivity|].
  rewrite perm_swap. now constructor.
Qed.

Lemma sort_strings_perm (l : list string) : Permutation l (sort_strings l).
Proof.
  induction l as [|x l IH]; simpl; [constructor|].
  rewrite <- insert_sorted_perm. now constructor.
Qed.

Lemma categories_In (col : Row -> cell) (df : DataFrame) (k : string) :
  In k (categories col df) <-> exists r, In r df /\ col r = Some k.
Proof.
  unfold categories.
  assert (H := sort_strings_perm (dropna_values (unique (map col df)))).
  split.
  - intros Hk. apply (Permutation_in _ (Permutation_sym H)) in Hk.
    apply dropna_values_In, unique_In, in_map_iff in Hk
      as (r & Hr & Hin).
    now exists r.
  - intros (r & Hin & Hr). apply (Permutation_in _ H).
    apply dropna_values_In, unique_In, in_map_iff. now exists r.
Qed.

Lemma categories_NoDup (col : Row -> cell) (df : DataFrame) :
  NoDup (categories col df).
Proof.
  unfold categories.
  eapply Permutation_NoDup; [apply sort_strings_perm|].
  apply dropna_values_NoDup, unique_NoDup.
Qed.

Lemma group_keys_NoDup observed cats col view :
  NoDup cats -> NoDup (group_keys observed cats col view).
Proof.
  intros H. unfold group_keys. destruct observed; [|assumption].
  now apply NoDup_filter.
Qed.

Lemma group_keys_incl observed cats col view :
  incl (group_keys observed cats col view) cats.
Proof.
  unfold group_keys. destruct observed; [apply incl_filter | apply incl_refl].
Qed.

Lemma group_keys_cover observed cats col view (r : Row) (k : string) :
  In r view -> col r = Some k -> In k cats ->
  In k (group_keys observed cats col view).
Proof.
  intros Hr Hk Hc. unfold group_keys. destruct observed; [|assumption].
  apply filter_In. split; [assumption|].
  apply existsb_exists. exists r. split; [assumption|].
  now apply cell_eqb_eq.
Qed.

Lemma group_sum_cons col (r : Row) (view : DataFrame) (k : string) :
  group_sum col (r :: view) k =
  (if cell_eqb (col r) (Some k) then Dose r else 0) + group_sum col view k.
Proof.
  unfold group_sum. simpl. now destruct (cell_eqb (col r) (Some k)).
Qed.

Lemma group_sum_absent col (view : DataFrame) (k : string) :
  (forall r, In r view -> col r <> Some k) -> group_sum col view k = 0.
Proof.
  induction view as [|r view IH]; intros H; [reflexivity|].
  rewrite group_sum_cons, IH by (intros; apply H; now right).
  destruct (cell_eqb (col r) (Some k)) eqn:E; [|reflexivity].
  apply cell_eqb_eq in E. exfalso. apply (H r); [now left | assumption].
Qed.

Lemma group_sum_nonneg col (view : DataFrame) (k : string) :
  (forall r, In r view -> Dose r = 1) -> 0 <= group_sum col view k.
Proof.
  induction view as [|r view IH]; intros H; [unfold group_sum; simpl; lia|].
  rewrite group_sum_cons.
  assert (0 <= group_sum col view k) by (apply IH; intros; apply H; now right).
  destruct (cell_eqb (col r) (Some k)); [rewrite (H r) by now left|]; lia.
Qed.

Lemma groupby_sum_In keys col view (e : string * Z) :
  In e (groupby_sum keys col view) <->
  In (fst e) keys /\ snd e = group_sum col view (fst e).
Proof.
  unfold groupby_sum. rewrite in_map_iff. split.
  - intros (k & <- & Hk). now split.
  - intros [Hk Hs]. exists (fst e). destruct e; simpl in *. now subst.
Qed.

Lemma groupby_sum_keys keys col view :
  map fst (groupby_sum keys col view) = keys.
Proof.
  unfold groupby_sum. rewrite map_map. simpl. apply map_id.
Qed.

Lemma share_cons (c : cell) (d : Z) (k : string) (keys : list string) :
  share c d (k :: keys) =
  (if cell_eqb c (Some k) then d else 0) + share c d keys.
Proof. reflexivity. Qed.

Lemma share_absent (c : cell) (d : Z) (keys : list string) :
  (forall k, In k keys -> c <> Some k) -> share c d keys = 0.
Proof.
  induction keys as [|k keys IH]; intros H; [reflexivity|].
  rewrite share_cons, IH by (intros; apply H; now right).
  destruct (cell_eqb c (Some k)) eqn:E; [|reflexivity].
  apply cell_eqb_eq in E. exfalso. apply (H k); [now left | assumption].
Qed.

Lemma share_present (k0 : string) (d : Z) (keys : list string) :
  NoDup keys -> In k0 keys -> share (Some k0) d keys = d.
Proof.
  induction 1 as [|k keys Hn Hd IH]; intros Hin; [contradiction|].
  rewrite share_cons. destruct (cell_eqb (Some k0) (Some k)) eqn:E.
  - apply cell_eqb_eq in E. injection E as ->.
    rewrite share_absent; [lia|]. intros k' Hk' [= ->]. contradiction.
  - apply cell_eqb_neq in E. destruct Hin as [->|Hin]; [congruence|].
    rewrite IH by assumption. lia.
Qed.

Lemma sum_values_cons keys col (r : Row) (view : DataFrame) :
  sum_values (groupby_sum keys col (r :: view)) =
  share (col r) (Dose r) keys + sum_values (groupby_sum keys col view).
Proof.
  unfold sum_values, share, groupby_sum.
  induction keys as [|k keys IH]; simpl; [reflexivity|].
  rewrite group_sum_cons. simpl in IH. rewrite IH. lia.
Qed.

(** The totals of a grouped table add up to the number of rows that
    have a key: the rows whose key is NaN are in no group. *)
Lemma sum_values_groupby keys col (view : DataFrame) :
  NoDup keys ->
  (forall r, In r view -> Dose r = 1) ->
  (forall r k, In r view -> col r = Some k -> In k keys) ->
  sum_values (groupby_sum keys col view) =
  Z.of_nat (List.length (filter (fun r => notna (col r)) view)).
Proof.
  intros Hn. induction view as [|r view IH]; intros Hd Hk.
  - unfold sum_values, groupby_sum. simpl.
    induction keys as [|k keys IHk]; simpl; [reflexivity|].
    inversion Hn; subst. now rewrite IHk.
  - rewrite sum_values_cons, IH;
      [| intros; apply Hd; now right | intros r' k' H; apply Hk; now right].
    simpl. destruct (col r) as [k0|] eqn:E; simpl.
    + rewrite share_present; [| assumption | apply (Hk r); [now left | exact E]].
      rewrite (Hd r) by now left. lia.
    + rewrite share_absent; [lia | intros; discriminate].
Qed.

Lemma filter_notna_all {A} (col : A -> cell) (view : list A) :
  (forall r, In r view -> col r <> None) ->
  filter (fun r => notna (col r)) view = view.
Proof.
  induction view as [|r view IH]; intros H; simpl; [reflexivity|].
  destruct (col r) eqn:E; simpl.
  - rewrite IH; [reflexivity | intros; apply H; now right].
  - exfalso. apply (H r); [now left | assumption].
Qed.

Lemma sum_values_perm (t t' : list (string * Z)) :
  Permutation t t' -> sum_values t = sum_values t'.
Proof.
  unfold sum_values. induction 1; simpl; lia.
Qed.

(** ** Sorted tables *)

Lemma StronglySorted_app_inv {A} (R : A -> A -> Prop) (l1 l2 : list A) :
  StronglySorted R (l1 ++ l2) ->
  forall a b, In a l1 -> In b l2 -> R a b.
Proof.
  induction l1 as [|x l1 IH]; simpl; intros H a b Ha Hb; [contradiction|].
  inversion H as [|? ? Hs Hall]; subst. destruct Ha as [->|Ha].
  - rewrite Forall_forall in Hall. apply Hall, in_or_app. now right.
  - now apply IH.
Qed.

Lemma firstn_incl {A} (n : nat) (l : list A) : incl (firstn n l) l.
Proof.
  intros x Hx. rewrite <- (firstn_skipn n l). apply in_or_app. now left.
Qed.

Lemma insert_by_dose_perm x t : Permutation (x :: t) (insert_by_dose x t).
Proof.
  induction t as [|y t IH]; simpl; [reflexivity|].
  destruct (snd y <=? snd x); [reflexivity|].
  rewrite perm_swap. now constructor.
Qed.

Lemma sort_by_dose_perm t : Permutation t (sort_by_dose t).
Proof.
  induction t as [|x t IH]; simpl; [constructor|].
  rewrite <- insert_by_dose_perm. now constructor.
Qed.

Lemma insert_by_dose_sorted x t :
  StronglySorted (fun a b => snd b <= snd a) t ->
  StronglySorted (fun a b => snd b <= snd a) (insert_by_dose x t).
Proof.
  induction 1 as [|y t Hs IH Hall]; simpl.
  - repeat constructor.
  - destruct (snd y <=? snd x) eqn:E.
    + apply Z.leb_le in E. constructor; [now constructor|].
      constructor; [assumption|].
      eapply Forall_impl; [|exact Hall]. simpl. intros; lia.
    + apply Z.leb_gt in E. constructor; [assumption|].
      eapply Permutation_Forall; [apply insert_by_dose_perm|].
      constructor; [lia | assumption].
Qed.

Lemma sort_by_dose_desc t :
  StronglySorted (fun a b => snd b <= snd a) (sort_by_dose t).
Proof.
  induction t as [|x t IH]; simpl; [constructor|].
  now apply insert_by_dose_sorted.
Qed.

(** ** The run of the script *)

Lemma view_before_sexo df ui : view_before Sexo df ui = view_date df ui.
Proof. reflexivity. Qed.

Lemma view_before_raca df ui : view_before RacaCor df ui = view_sexo df ui.
Proof. reflexivity. Qed.

Lemma view_before_uf df ui : view_before UfAplicacao df ui = view_raca df ui.
Proof. reflexivity. Qed.

Lemma view_before_vacina df ui :
  view_before TipoVacina df ui = view_uf df ui.
Proof. reflexivity. Qed.

(** An empty selection empties the view of its stage and of every later
    one. *)
Lemma filter_isin_nil (col : Row -> cell) (view : DataFrame) :
  filter (fun r => isin [] (col r)) view = [].
Proof. induction view; simpl; auto. Qed.

Lemma empty_selection_view (D : dimension) df ui :
  selection D ui = [] -> view_vacina df ui = [].
Proof.
  unfold view_vacina, view_uf, view_raca, view_sexo.
  destruct D; simpl; intros ->;
    repeat (rewrite filter_isin_nil; simpl); reflexivity.
Qed.

Section ScriptFacts.

Variable observed : bool.
Variable sort_values : list (string * Z) -> list (string * Z).

Hypothesis sort_values_perm : forall t, Permutation t (sort_values t).
Hypothesis sort_values_desc :
  forall t, StronglySorted (fun a b => snd b <= snd a) (sort_values t).

Local Abbreviation run := (script observed sort_values).
Local Abbreviation charts := (aggregate observed sort_values).

(** The sidebar and the outcome of a run, in terms of the views. *)
Lemma script_sidebar df ui :
  options_sexo (fst (run df ui)) = unique (map tp_sexo_paciente (view_date df ui))
  /\ options_raca_cor (fst (run df ui))
     = unique (map no_raca_cor_paciente (view_sexo df ui))
  /\ options_uf_aplicacao (fst (run df ui))
     = unique (map sg_uf_estabelecimento (view_raca df ui))
  /\ options_tipo_vacina (fst (run df ui))
     = unique (map ds_vacina (view_uf df ui)).
Proof.
  unfold script. fold (view_date df ui). fold (view_sexo df ui).
  fold (view_raca df ui). fold (view_uf df ui). fold (view_vacina df ui).
  destruct (int_of_float (series_min (map nu_idade_paciente (view_vacina df ui))));
    [destruct (int_of_float (series_max (map nu_idade_paciente (view_vacina df ui))))|];
    simpl; auto.
Qed.

Lemma script_outcome df ui :
  snd (run df ui) =
  match view_vacina df ui with
  | [] => ValueError
  | _ :: _ =>
      match view_idade df ui with
      | [] => EmptyResult
      | _ :: _ => Rendered (charts df (view_idade df ui))
      end
  end.
Proof.
  unfold script. fold (view_date df ui). fold (view_sexo df ui).
  fold (view_raca df ui). fold (view_uf df ui). fold (view_vacina df ui).
  fold (view_idade df ui).
  destruct (view_vacina df ui); reflexivity.
Qed.

Lemma script_slider df ui :
  slider_idade (fst (run df ui)) =
  match series_min (map nu_idade_paciente (view_vacina df ui)),
        series_max (map nu_idade_paciente (view_vacina df ui)) with
  | Some lo, Some hi => Some (lo, hi)
  | _, _ => None
  end.
Proof.
  unfold script. fold (view_date df ui). fold (view_sexo df ui).
  fold (view_raca df ui). fold (view_uf df ui). fold (view_vacina df ui).
  destruct (view_vacina df ui); reflexivity.
Qed.

Lemma script_rendered df ui d :
  snd (run df ui) = Rendered d ->
  d = charts df (view_idade df ui) /\ view_idade df ui <> [].
Proof.
  rewrite script_outcome.
  destruct (view_vacina df ui); [discriminate|].
  destruct (view_idade df ui); [discriminate|].
  intros [= <-]. split; [reflexivity | discriminate].
Qed.

(** C3.  The options a multiselect offers for a dimension are the
    distinct values of that column in the view left by the stages
    strictly before it, as a list and as a set; on the sample they are
    neither the distinct values of the whole frame nor those of the
    view after the dimension's own stage. *)
Theorem options_from_upstream_view :
  (forall df ui D,
     offered D (fst (run df ui)) = distinct_values D (view_before D df ui))
  /\ (forall df ui D x,
        In x (offered D (fst (run df ui))) <->
        exists r, In r (view_before D df ui) /\ column D r = x)
  /\ offered TipoVacina (fst (run sample_df ui_named_uf))
     <> distinct_values TipoVacina sample_df
  /\ offered Sexo (fst (run sample_df ui_one_date))
     <> distinct_values Sexo (view_after Sexo sample_df ui_one_date).
Proof.
  assert (H : forall df ui D,
            offered D (fst (run df ui))
            = distinct_values D (view_before D df ui)).
  { intros df ui D. destruct (script_sidebar df ui) as (H1 & H2 & H3 & H4).
    destruct D; simpl; assumption. }
  split; [exact H|]. split.
  - intros df ui D x. rewrite H. unfold distinct_values.
    rewrite unique_In, in_map_iff. split; intros (r & A & B); eauto.
  - rewrite !H. split; vm_compute; discriminate.
Qed.

(** C9.  When the view is empty on reaching the age stage, the bounds
    of the slider cannot be computed: the run ends in ValueError, with
    no slider, and so not in the empty result. *)
Theorem age_bounds_fail_on_empty_view df ui :
  view_vacina df ui = [] ->
  snd (run df ui) = ValueError
  /\ slider_idade (fst (run df ui)) = None
  /\ snd (run df ui) <> EmptyResult.
Proof.
  intros H. rewrite script_outcome, script_slider, H. simpl.
  split; [reflexivity | split; [reflexivity | discriminate]].
Qed.

(** C2, as the code runs.  When the selection of some categorical
    dimension is empty the filtered view is empty, but the run ends in
    ValueError and not in the empty result. *)
Theorem empty_selection_raises df ui D :
  selection D ui = [] ->
  view_idade df ui = []
  /\ snd (run df ui) = ValueError.
Proof.
  intros H. apply (empty_selection_view D df) in H.
  rewrite script_outcome. unfold view_idade. rewrite H. now split.
Qed.

(** C10.  With fewer than two dates in the date input no date mask is
    applied: the base view is the loaded frame itself, the sex options
    are drawn from it and the sex stage filters it. *)
Theorem single_date_skips_date_stage df ui :
  (List.length (date_range ui) < 2)%nat ->
  view_date df ui = df
  /\ options_sexo (fst (run df ui)) = unique (map tp_sexo_paciente df)
  /\ view_sexo df ui
     = filter (fun r => isin (selected_sexo ui) (tp_sexo_paciente r)) df.
Proof.
  intros H.
  assert (E : view_date df ui = df).
  { unfold view_date, date_stage.
    destruct (date_range ui) as [|s [|e dr]]; simpl in H;
      [reflexivity | reflexivity | lia]. }
  destruct (script_sidebar df ui) as (H1 & _).
  unfold view_sexo. rewrite H1, E. auto.
Qed.

End ScriptFacts.

(** ** The aggregates of a rendered run *)

Section AggregateFacts.

Variable to_datetime : cell -> option Timestamp.
Variable to_numeric : cell -> option number.
Variable cast_overflow : Q -> Z.
Variable observed : bool.
Variable sort_values : list (string * Z) -> list (string * Z).

Hypothesis sort_values_perm : forall t, Permutation t (sort_values t).
Hypothesis sort_values_desc :
  forall t, StronglySorted (fun a b => snd b <= snd a) (sort_values t).

Local Abbreviation load := (load_data to_datetime to_numeric cast_overflow).
Local Abbreviation run := (script observed sort_values).

(** The table of one column over a view of the loaded frame. *)
Local Abbreviation grouped df col view :=
  (groupby_sum (group_keys observed (categories col df) col view) col view).

Lemma grouped_keys_NoDup df col view :
  NoDup (map fst (grouped df col view)).
Proof.
  rewrite groupby_sum_keys. apply group_keys_NoDup, categories_NoDup.
Qed.

Lemma grouped_keys_cover df col view (r : Row) (k : string) :
  incl view df -> In r view -> col r = Some k ->
  In k (map fst (grouped df col view)).
Proof.
  intros Hincl Hr Hk. rewrite groupby_sum_keys.
  apply (group_keys_cover observed _ col view r); try assumption.
  apply categories_In. exists r. split; [now apply Hincl | assumption].
Qed.

(** What the code adds up: the rows of the view that have a key. *)
Lemma grouped_total lines df col view :
  load lines = Frame df ->
  incl view df ->
  sum_values (grouped df col view) =
  Z.of_nat (List.length (filter (fun r => notna (col r)) view)).
Proof.
  intros Hload Hincl. apply sum_values_groupby.
  - apply group_keys_NoDup, categories_NoDup.
  - intros r Hr. apply (load_data_dose _ _ _ lines df r Hload). apply Hincl, Hr.
  - intros r k Hr Hk. rewrite <- (groupby_sum_keys _ col view).
    now apply (grouped_keys_cover df col view r).
Qed.

(** C1, amended.  On a rendered run whose filtered view has no missing
    value in the state, race and sex columns, the total of doses is
    the number of rows of the view and equals the sum of each of the
    three grouped tables; every row falls under exactly one key of
    each table. *)
Theorem sum_invariant lines df ui d :
  load lines = Frame df ->
  snd (run df ui) = Rendered d ->
  (forall r, In r (view_idade df ui) ->
     sg_uf_estabelecimento r <> None
     /\ no_raca_cor_paciente r <> None
     /\ tp_sexo_paciente r <> None) ->
  total_doses d = Z.of_nat (List.length (view_idade df ui))
  /\ sum_values (df_uf_doses d) = total_doses d
  /\ sum_values (df_raca_doses d) = total_doses d
  /\ sum_values (df_sexo_doses d) = total_doses d
  /\ (NoDup (map fst (df_uf_doses d))
      /\ NoDup (map fst (df_raca_doses d))
      /\ NoDup (map fst (df_sexo_doses d)))
  /\ (forall r, In r (view_idade df ui) ->
        (exists k, sg_uf_estabelecimento r = Some k
                   /\ In k (map fst (df_uf_doses d)))
        /\ (exists k, no_raca_cor_paciente r = Some k
                      /\ In k (map fst (df_raca_doses d)))
        /\ (exists k, tp_sexo_paciente r = Some k
                      /\ In k (map fst (df_sexo_doses d)))).
Proof.
  intros Hload Hrun Hfull.
  apply script_rendered in Hrun as [-> _].
  pose proof (@view_idade_incl_df df ui) as Hincl.
  set (view := view_idade df ui) in *.
  assert (Hsum : forall col, (forall r, In r view -> col r <> None) ->
            sum_values (grouped df col view)
            = Z.of_nat (List.length view)).
  { intros col Hcol. rewrite (grouped_total lines df col view Hload Hincl).
    now rewrite filter_notna_all. }
  unfold aggregate; simpl.
  split; [reflexivity|].
  split.
  { rewrite <- (sum_values_perm _ _ (sort_values_perm _)).
    apply Hsum. intros r Hr. now apply Hfull. }
  split; [apply Hsum; intros r Hr; now apply Hfull|].
  split; [apply Hsum; intros r Hr; now apply Hfull|].
  split.
  { repeat split; try apply grouped_keys_NoDup.
    eapply Permutation_NoDup;
      [apply Permutation_map, sort_values_perm | apply grouped_keys_NoDup]. }
  intros r Hr. destruct (Hfull r Hr) as (Huf & Hraca & Hsexo).
  repeat split.
  - destruct (sg_uf_estabelecimento r) as [k|] eqn:E; [|congruence].
    exists k. split; [reflexivity|].
    eapply Permutation_in; [apply Permutation_map, sort_values_perm|].
    now apply (grouped_keys_cover df _ view r).
  - destruct (no_raca_cor_paciente r) as [k|] eqn:E; [|congruence].
    exists k. split; [reflexivity|].
    now apply (grouped_keys_cover df _ view r).
  - destruct (tp_sexo_paciente r) as [k|] eqn:E; [|congruence].
    exists k. split; [reflexivity|].
    now apply (grouped_keys_cover df _ view r).
Qed.

(** C4.  On a rendered run the manufacturer table has at most ten
    lines, each line carries the summed doses of its manufacturer, and
    no manufacturer left out of the table has more doses in the
    filtered view than a manufacturer in it. *)
Theorem top10_fabricantes lines df ui d :
  load lines = Frame df ->
  snd (run df ui) = Rendered d ->
  (List.length (df_fabricante_doses d) <= 10)%nat
  /\ (forall e, In e (df_fabricante_doses d) ->
        snd e = group_sum ds_vacina_fabricante
                  (view_idade df ui) (fst e))
  /\ (forall e k,
        In e (df_fabricante_doses d) ->
        ~ In k (map fst (df_fabricante_doses d)) ->
        group_sum ds_vacina_fabricante (view_idade df ui) k
        <= snd e).
Proof.
  intros Hload Hrun. apply script_rendered in Hrun as [-> _].
  pose proof (@view_idade_incl_df df ui) as Hincl.
  set (view := view_idade df ui) in *.
  unfold aggregate; cbn [df_fabricante_doses].
  set (table := grouped df ds_vacina_fabricante view).
  assert (Hdose : forall r, In r view -> Dose r = 1).
  { intros r Hr. apply (load_data_dose _ _ _ lines df r Hload). apply Hincl, Hr. }
  assert (Hentry : forall e, In e (firstn 10 (sort_values table)) ->
            In e table).
  { intros e He. apply firstn_incl in He.
    eapply Permutation_in; [apply Permutation_sym, sort_values_perm|].
    exact He. }
  split; [apply firstn_le_length|].
  split.
  { intros e He. apply Hentry, groupby_sum_In in He. tauto. }
  intros e k He Hk.
  destruct (in_dec string_dec k (map fst table)) as [Hin|Hout].
  - apply in_map_iff in Hin as (x & Hx & Hin).
    assert (Hsum : snd x = group_sum ds_vacina_fabricante view k).
    { apply groupby_sum_In in Hin. rewrite Hx in Hin. tauto. }
    rewrite <- Hsum.
    apply (Permutation_in _ (sort_values_perm table)) in Hin.
    rewrite <- (firstn_skipn 10 (sort_values table)) in Hin.
    apply in_app_or in Hin as [Hin|Hin].
    + exfalso. apply Hk, in_map_iff. now exists x.
    + pose proof (sort_values_desc table) as Hs.
      rewrite <- (firstn_skipn 10 (sort_values table)) in Hs.
      apply (StronglySorted_app_inv _ _ _ Hs e x He Hin).
  - rewrite group_sum_absent.
    + apply Hentry, groupby_sum_In in He as [_ ->].
      now apply group_sum_nonneg.
    + intros r Hr E. apply Hout.
      now apply (grouped_keys_cover df _ view r).
Qed.

End AggregateFacts.

(** ** The date stage *)

(** C8.  With both end points given the date stage is the selection, in
    frame order, of the rows whose date lies between them, end points
    included; the time of day of a timestamp plays no part; of the
    three March doses the interval from the 2nd to the 30th keeps the
    middle one alone. *)
Theorem date_stage_inclusive :
  (forall df s e r,
     In r (date_stage df [s; e]) <->
     In r df
     /\ exists ts, dt_vacina r = Some ts
                   /\ date_le s (ts_date ts) /\ date_le (ts_date ts) e)
  /\ (forall df s e,
        date_stage df [s; e]
        = filter (fun r => between_dates s e (dt_vacina r)) df)
  /\ (forall s e d t1 t2,
        between_dates s e (Some (mkTimestamp d t1))
        = between_dates s e (Some (mkTimestamp d t2)))
  /\ (map (fun r => option_map ts_date (dt_vacina r)) march_df
      = [Some (mkDate 2025 3 1); Some (mkDate 2025 3 15);
         Some (mkDate 2025 3 31)]
      /\ map index (date_stage march_df [mkDate 2025 3 2; mkDate 2025 3 30])
         = [1%nat]).
Proof.
  split; [|split; [|split]].
  - intros df s e r. unfold date_stage.
    now rewrite filter_In, between_dates_spec.
  - reflexivity.
  - reflexivity.
  - split; vm_compute; reflexivity.
Qed.

(** ** The total of doses as text *)

Lemma digits2_pos_size (p : positive) : digits2_pos p = Pos.size p.
Proof. induction p; simpl; congruence. Qed.

Lemma iter_xO_digits (p k : positive) :
  digits2_pos (Pos.iter xO p k) = (digits2_pos p + k)%positive.
Proof.
  induction k as [|k IH] using Pos.peano_ind.
  - simpl. lia.
  - rewrite Pos.iter_succ. simpl. rewrite IH. lia.
Qed.

Lemma iter_xO_value (p k : positive) :
  Zpos (Pos.iter xO p k) = Zpos p * 2 ^ Zpos k.
Proof.
  induction k as [|k IH] using Pos.peano_ind.
  - simpl. lia.
  - rewrite Pos.iter_succ, Pos2Z.inj_xO, IH, Pos2Z.inj_succ.
    rewrite Z.pow_succ_r by lia. lia.
Qed.

(** A mantissa of full width is left as it is by the rounding. *)
Lemma binary_round_aux_exact (m : positive) (e : Z) :
  Zpos (digits2_pos m) = 53 -> -52 <= e <= 0 ->
  binary_round_aux Fmt.prec Fmt.emax false (Zpos m) e loc_Exact
  = S754_finite false m e.
Proof.
  intros Hd He.
  assert (Hshift : fexp Fmt.prec Fmt.emax (Zdigits2 (Zpos m) + e) - e = 0).
  { unfold fexp, emin, Fmt.prec, Fmt.emax. simpl Zdigits2. rewrite Hd. lia. }
  unfold binary_round_aux, shr_fexp. rewrite Hshift.
  cbn [shr shr_record_of_loc round_nearest_even shr_m loc_of_shr_record].
  rewrite Hshift. cbn [shr shr_m].
  destruct (e <=? Fmt.emax - Fmt.prec) eqn:E; [reflexivity|].
  apply Z.leb_gt in E. unfold Fmt.emax, Fmt.prec in E. lia.
Qed.

Lemma round_half_even_exact (q d : Z) :
  0 < d -> Fmt.round_half_even (q * d) d = q.
Proof.
  intros Hd. unfold Fmt.round_half_even.
  rewrite Z.mod_mul, Z.div_mul by lia.
  destruct (2 * 0 ?= d) eqn:E; try reflexivity.
  - apply Z.compare_eq in E. lia.
  - apply Z.compare_gt_iff in E. lia.
Qed.

(** A count below [2^53] is a double, and [.0f] prints its digits. *)
Lemma float_of_int_exact (p : positive) :
  Zpos p < 2 ^ 53 ->
  exists m e,
    Fmt.float_of_int (Zpos p) = S754_finite false m e
    /\ Fmt.scaled 0 m e = Zpos p.
Proof.
  intros Hp.
  assert (Hsize : Zpos (digits2_pos p) <= 53).
  { rewrite digits2_pos_size.
    destruct (Z.le_gt_cases (Zpos (Pos.size p)) 53) as [H|H]; [exact H|].
    exfalso. pose proof (Pos.size_le p) as Hle.
    assert (2 ^ 54 <= 2 ^ Zpos (Pos.size p))
      by (apply Z.pow_le_mono_r; lia).
    assert (Zpos (2 ^ Pos.size p) <= Zpos p~0) by exact Hle.
    rewrite Pos2Z.inj_pow in *. lia. }
  unfold Fmt.float_of_int, binary_normalize, binary_round, shl_align.
  assert (Hfexp : fexp Fmt.prec Fmt.emax (Zpos (digits2_pos p) + 0)
                  = Zpos (digits2_pos p) - 53).
  { unfold fexp, emin, Fmt.prec, Fmt.emax. lia. }
  rewrite Hfexp.
  destruct (Zpos (digits2_pos p) - 53 - 0) as [|k|k] eqn:Ek; try lia.
  - exists p, 0. split.
    + apply binary_round_aux_exact; lia.
    + unfold Fmt.scaled. simpl. lia.
  - exists (Pos.iter xO p k), (Zpos (digits2_pos p) - 53). split.
    + apply binary_round_aux_exact; [rewrite iter_xO_digits|]; lia.
    + unfold Fmt.scaled.
      destruct (0 <=? Zpos (digits2_pos p) - 53) eqn:E;
        [apply Z.leb_le in E; lia|].
      rewrite iter_xO_value, Z.mul_1_r.
      replace (- (Zpos (digits2_pos p) - 53)) with (Zpos k) by lia.
      apply round_half_even_exact. lia.
Qed.

Lemma metric_below_million (n : Z) :
  0 <= n < 1000000 ->
  metric_total_doses n = Fmt.group_thousands (Fmt.digits n).
Proof.
  intros Hn. unfold metric_total_doses.
  destruct (n <? 1000000) eqn:E; [|apply Z.ltb_ge in E; lia].
  destruct n as [|p|p]; [reflexivity| |lia].
  destruct (float_of_int_exact p) as (m & e & -> & Hs); [lia|].
  simpl. now rewrite Hs.
Qed.

(** ** The quotient by one million and its two decimals *)

Lemma Zdigits2_spec (p : positive) :
  2 ^ (Zdigits2 (Zpos p) - 1) <= Zpos p < 2 ^ Zdigits2 (Zpos p).
Proof.
  simpl Zdigits2. rewrite digits2_pos_size.
  pose proof (Pos.size_gt p) as Hgt. pose proof (Pos.size_le p) as Hle.
  assert (Hgt' : Zpos p < Zpos (2 ^ Pos.size p)) by exact Hgt.
  assert (Hle' : Zpos (2 ^ Pos.size p) <= Zpos p~0) by exact Hle.
  rewrite Pos2Z.inj_pow in Hgt', Hle'.
  split; [|exact Hgt'].
  replace (Zpos (Pos.size p)) with (Z.succ (Zpos (Pos.size p) - 1)) in Hle'
    by lia.
  rewrite Z.pow_succ_r in Hle' by lia. lia.
Qed.

Lemma Zdigits2_unique (p : positive) (k : Z) :
  2 ^ (k - 1) <= Zpos p < 2 ^ k -> 0 < k -> Zdigits2 (Zpos p) = k.
Proof.
  intros [Hlo Hhi] Hk. pose proof (Zdigits2_spec p) as [Dlo Dhi].
  assert (0 < Zdigits2 (Zpos p)) by (simpl; lia).
  destruct (Z.lt_trichotomy (Zdigits2 (Zpos p)) k) as [H1|[H1|H1]];
    [exfalso | exact H1 | exfalso].
  - assert (2 ^ Zdigits2 (Zpos p) <= 2 ^ (k - 1))
      by (apply Z.pow_le_mono_r; lia).
    lia.
  - assert (2 ^ k <= 2 ^ (Zdigits2 (Zpos p) - 1))
      by (apply Z.pow_le_mono_r; lia).
    lia.
Qed.

Lemma shr_1_m (m : positive) (r s : bool) :
  shr_m (shr_1 {| shr_m := Zpos m; shr_r := r; shr_s := s |}) = Zpos m / 2.
Proof.
  destruct m as [m|m|]; simpl shr_m.
  - apply Z.div_unique with (r := 1); lia.
  - apply Z.div_unique with (r := 0); lia.
  - reflexivity.
Qed.

(** One step of [shr_fexp] on a mantissa of 53 or 54 bits: the 54th bit,
    if any, is shifted out. *)
Lemma shr_fexp_step (m e : Z) (l : location) :
  2 ^ 52 <= m < 2 ^ 54 -> -1000 <= e ->
  exists k mrs,
    shr_fexp Fmt.prec Fmt.emax m e l = (mrs, e + k)
    /\ ((k = 0 /\ m < 2 ^ 53 /\ mrs = shr_record_of_loc m l)
        \/ (k = 1 /\ 2 ^ 53 <= m))
    /\ shr_m mrs = m / 2 ^ k.
Proof.
  intros Hm He. destruct m as [|p|p]; try lia.
  unfold shr_fexp.
  destruct (Z.lt_ge_cases (Zpos p) (2 ^ 53)) as [Hlt|Hge].
  - exists 0, (shr_record_of_loc (Zpos p) l).
    rewrite (Zdigits2_unique p 53) by lia.
    replace (fexp Fmt.prec Fmt.emax (53 + e) - e) with 0
      by (unfold fexp, emin, Fmt.prec, Fmt.emax; lia).
    rewrite Z.add_0_r, Z.pow_0_r, Z.div_1_r. simpl shr.
    repeat split; auto.
    destruct l as [|[]]; reflexivity.
  - exists 1, (shr_1 (shr_record_of_loc (Zpos p) l)).
    rewrite (Zdigits2_unique p 54) by lia.
    replace (fexp Fmt.prec Fmt.emax (54 + e) - e) with 1
      by (unfold fexp, emin, Fmt.prec, Fmt.emax; lia).
    simpl shr. repeat split; auto.
    rewrite Z.pow_1_r. destruct l as [|[]]; apply shr_1_m.
Qed.

Lemma round_nearest_even_near (m : Z) (l : location) :
  m <= round_nearest_even m l <= m + 1.
Proof.
  destruct l as [|[]]; simpl; try destruct (Z.even m); lia.
Qed.

(** Rounding a quotient of 53 or 54 bits moves it by less than two of
    its units. *)
Lemma binary_round_aux_near (mz ez : Z) (lz : location) :
  2 ^ 52 <= mz < 2 ^ 54 -> -1000 <= ez <= 900 ->
  exists M E K,
    binary_round_aux Fmt.prec Fmt.emax false mz ez lz = S754_finite false M E
    /\ ez <= E <= ez + 2
    /\ K = 2 ^ (E - ez)
    /\ mz - 1 <= Zpos M * K <= mz + 2.
Proof.
  intros Hm He. unfold binary_round_aux.
  destruct (shr_fexp_step mz ez lz Hm (proj1 He)) as (k & mrs & -> & Hk & Hmrs).
  set (m1 := round_nearest_even (shr_m mrs) (loc_of_shr_record mrs)).
  pose proof (round_nearest_even_near (shr_m mrs) (loc_of_shr_record mrs))
    as Hm1. fold m1 in Hm1.
  assert (Ha : 2 ^ 52 <= shr_m mrs < 2 ^ 53 /\ mz - 1 <= shr_m mrs * 2 ^ k <= mz).
  { rewrite Hmrs. destruct Hk as [(-> & Hlt & _)|(-> & Hge)].
    - rewrite Z.pow_0_r, Z.div_1_r. lia.
    - rewrite Z.pow_1_r.
      pose proof (Z.div_mod mz 2 ltac:(lia)) as Hd.
      pose proof (Z.mod_pos_bound mz 2 ltac:(lia)) as Hr.
      change (2 ^ 54) with (2 * 2 ^ 53) in Hm.
      change (2 ^ 53) with (2 * 2 ^ 52) in Hge |- *. lia. }
  destruct Ha as [Ha Hb].
  assert (Hk01 : k = 0 \/ k = 1) by (destruct Hk as [(-> & _)|(-> & _)]; auto).
  destruct (shr_fexp_step m1 (ez + k) loc_Exact) as (k2 & mrs2 & -> & Hk2 & Hmrs2);
    [change (2 ^ 54) with (2 * 2 ^ 53); lia | lia |].
  assert (Hc : 2 ^ 52 <= shr_m mrs2 /\ shr_m mrs2 * 2 ^ k2 = m1
               /\ (k2 = 0 \/ k2 = 1)).
  { rewrite Hmrs2. destruct Hk2 as [(-> & Hlt & _)|(-> & Hge)].
    - rewrite Z.pow_0_r, Z.div_1_r. lia.
    - assert (m1 = 2 ^ 53) as -> by lia. rewrite Z.pow_1_r.
      change (2 ^ 53) with (2 ^ 52 * 2). rewrite Z.div_mul by lia. lia. }
  destruct Hc as (Hpos & Hval & Hk2').
  destruct (shr_m mrs2) as [|M|M] eqn:EM; try lia.
  exists M, (ez + k + k2), (2 ^ k * 2 ^ k2).
  destruct (ez + k + k2 <=? Fmt.emax - Fmt.prec) eqn:Ele;
    [|apply Z.leb_gt in Ele; unfold Fmt.emax, Fmt.prec in Ele; lia].
  split; [reflexivity|]. split; [lia|]. split.
  - rewrite <- Z.pow_add_r by lia. f_equal. lia.
  - assert (Hm1' : Zpos M * (2 ^ k * 2 ^ k2) = m1 * 2 ^ k) by (rewrite <- Hval; ring).
    rewrite Hm1'.
    assert (0 < 2 ^ k) by (apply Z.pow_pos_nonneg; lia).
    assert (2 ^ k <= 2) by (destruct Hk01 as [-> | ->]; simpl; lia).
    nia.
Qed.

Lemma round_half_even_near (n d : Z) :
  0 < d ->
  2 * n - d <= 2 * (Fmt.round_half_even n d * d) <= 2 * n + d.
Proof.
  intros Hd. unfold Fmt.round_half_even. cbv zeta.
  pose proof (Z.div_mod n d ltac:(lia)) as Hn.
  pose proof (Z.mod_pos_bound n d Hd) as Hr.
  destruct (Z.compare_spec (2 * (n mod d)) d) as [E|E|E];
    [destruct (Z.even (n / d))| |]; nia.
Qed.

(** The double nearest to [n / 1000000], for a count of at most 52
    bits: a mantissa [M] and an exponent [E < 0] with
    [|M * 2^E - n / 10^6| <= 2 / S], where [S >= 2^21]. *)
Lemma truediv_million_near (p : positive) :
  1000000 <= Zpos p < 2 ^ 52 ->
  exists M E K S,
    Fmt.truediv (Zpos p) 1000000 = S754_finite false M E
    /\ E < 0 /\ 0 < K /\ 2 ^ (- E) * K = S /\ 2 ^ 21 <= S
    /\ -2000000 <= Zpos M * K * 1000000 - Zpos p * S <= 2000000.
Proof.
  intros Hp.
  pose proof (Zdigits2_spec p) as [Dlo Dhi].
  assert (Hd1 : 20 <= Zdigits2 (Zpos p) <= 52).
  { assert (0 < Zdigits2 (Zpos p)) by (simpl; lia). split.
    - destruct (Z.lt_ge_cases (Zdigits2 (Zpos p)) 20) as [H1|H1]; [|exact H1].
      assert (2 ^ Zdigits2 (Zpos p) <= 2 ^ 19)
        by (apply Z.pow_le_mono_r; lia).
      change (2 ^ 19) with 524288 in *. lia.
    - destruct (Z.lt_ge_cases 52 (Zdigits2 (Zpos p))) as [H1|H1]; [|exact H1].
      assert (2 ^ 52 <= 2 ^ (Zdigits2 (Zpos p) - 1))
        by (apply Z.pow_le_mono_r; lia).
      lia. }
  unfold Fmt.truediv, Fmt.exact_int, SFdiv, SFdiv_core_binary.
  change (Zdigits2 (Zpos 1000000)) with 20.
  set (d1 := Zdigits2 (Zpos p)) in *.
  replace (Z.min (fexp Fmt.prec Fmt.emax (d1 + 0 - (20 + 0))) (0 - 0))
    with (d1 - 73)
    by (unfold fexp, emin, Fmt.prec, Fmt.emax; lia).
  set (s := 73 - d1).
  replace (0 - 0 - (d1 - 73)) with s by (unfold s; lia).
  assert (Hs : 21 <= s <= 53) by (unfold s; lia).
  destruct s as [|s'|s'] eqn:Es; try lia. rewrite <- Es in *.
  rewrite Z.shiftl_mul_pow2 by lia.
  set (S := 2 ^ s).
  assert (HS : 2 ^ 21 <= S) by (apply Z.pow_le_mono_r; lia).
  assert (Hm : 2 ^ 72 <= Zpos p * S < 2 ^ 73).
  { assert (E1 : 2 ^ (d1 - 1) * S = 2 ^ 72)
      by (unfold S; rewrite <- Z.pow_add_r by lia; f_equal; lia).
    assert (E2 : 2 ^ d1 * S = 2 ^ 73)
      by (unfold S; rewrite <- Z.pow_add_r by lia; f_equal; lia).
    assert (0 < S) by (apply Z.pow_pos_nonneg; lia).
    rewrite <- E1, <- E2. split.
    - apply Z.mul_le_mono_nonneg_r; lia.
    - apply Z.mul_lt_mono_pos_r; lia. }
  pose proof (Z_div_mod (Zpos p * S) 1000000 ltac:(lia)) as Hdiv.
  destruct (Z.div_eucl (Zpos p * S) 1000000) as [q r].
  destruct Hdiv as [Hq Hr].
  assert (Hq' : 2 ^ 52 <= q < 2 ^ 54).
  { change (2 ^ 72) with (2 ^ 52 * 1048576) in Hm.
    change (2 ^ 73) with (2 ^ 54 * 524288) in Hm. lia. }
  destruct (binary_round_aux_near q (d1 - 73) (new_location 1000000 r))
    as (M & E & K & HM & HE & HK & Hnear); [exact Hq' | lia |].
  exists M, E, K, S. simpl xorb. rewrite HM.
  assert (HKpos : 0 < K) by (rewrite HK; apply Z.pow_pos_nonneg; lia).
  assert (HDK : 2 ^ (- E) * K = S)
    by (rewrite HK, <- Z.pow_add_r by lia; unfold S; f_equal; lia).
  repeat split; try assumption; try lia; nia.
Qed.

(** From one million up, and for any count a frame can hold, the metric
    shows a number of hundredths [h] that is within half a hundredth of
    the count divided by one million. *)
Lemma metric_above_million (n : Z) :
  1000000 <= n < 2 ^ 52 ->
  exists h,
    metric_total_doses n
    = (Fmt.digits (h / 100) ++ "." ++ Fmt.two_digits (h mod 100)) ++ " Mi"
    /\ 10000 * h - 5000 <= n <= 10000 * h + 5000.
Proof.
  intros Hn. unfold metric_total_doses.
  destruct (n <? 1000000) eqn:Elt; [apply Z.ltb_lt in Elt; lia|].
  destruct n as [|p|p]; try lia.
  destruct (truediv_million_near p Hn)
    as (M & E & K & S & -> & HE & HK & HDK & HS & Hnear).
  unfold Fmt.format_2f, Fmt.scaled.
  destruct (0 <=? E) eqn:E0; [apply Z.leb_le in E0; lia|].
  change (10 ^ 2) with 100.
  set (D := 2 ^ (- E)) in *.
  set (h := Fmt.round_half_even (Zpos M * 100) D).
  exists h. split; [reflexivity|].
  assert (HD : 0 < D) by (apply Z.pow_pos_nonneg; lia).
  pose proof (round_half_even_near (Zpos M * 100) D HD) as Hh. fold h in Hh.
  change (2 ^ 21) with 2097152 in HS.
  assert (HhS : 200 * (Zpos M * K) - S <= 2 * (h * S) <= 200 * (Zpos M * K) + S).
  { rewrite <- HDK. nia. }
  assert (Hup : (10000 * h - Zpos p) * S < 5001 * S) by lia.
  assert (Hlo : (Zpos p - 10000 * h) * S < 5001 * S) by lia.
  apply Z.mul_lt_mono_pos_r in Hup, Hlo; lia.
Qed.


(** *** Numerals *)

Lemma append_assoc (a b c : string) : (a ++ b) ++ c = a ++ b ++ c.
Proof. induction a as [|x a IH]; simpl; [reflexivity | now rewrite IH]. Qed.

Lemma append_length (a b : string) :
  String.length (a ++ b) = (String.length a + String.length b)%nat.
Proof. induction a as [|x a IH]; simpl; [reflexivity | now rewrite IH]. Qed.

Lemma is_digit_range (c : ascii) :
  Text.is_digit c = true -> 0 <= Z.of_nat (nat_of_ascii c) - 48 <= 9.
Proof.
  unfold Text.is_digit. intros H. apply andb_true_iff in H as [H1 H2].
  apply Nat.leb_le in H1, H2. lia.
Qed.

Lemma digit_nonzero (c : ascii) :
  Text.is_digit c = true -> Ascii.eqb c "0" = false ->
  1 <= Z.of_nat (nat_of_ascii c) - 48.
Proof.
  intros Hd Hz. pose proof (is_digit_range c Hd) as Hr.
  destruct (Z.eq_dec (Z.of_nat (nat_of_ascii c) - 48) 0) as [E|E]; [|lia].
  exfalso. assert (En : nat_of_ascii c = 48%nat) by lia.
  assert (Ec : c = "0"%char).
  { rewrite <- (ascii_nat_embedding c), En. reflexivity. }
  rewrite Ec in Hz. discriminate.
Qed.

Lemma number_from_cons (c : ascii) (s : string) (acc : Z) :
  Text.number_from acc (String c s)
  = if Text.is_digit c
    then Text.number_from (10 * acc + (Z.of_nat (nat_of_ascii c) - 48)) s
    else None.
Proof. reflexivity. Qed.

Lemma length_cons (c : ascii) (s : string) :
  Z.of_nat (String.length (String c s)) = Z.succ (Z.of_nat (String.length s)).
Proof. simpl String.length. lia. Qed.

Lemma number_from_shift (s : string) (acc acc' v : Z) :
  Text.number_from acc s = Some v ->
  Text.number_from acc' s
  = Some (v + (acc' - acc) * 10 ^ Z.of_nat (String.length s)).
Proof.
  revert acc acc' v. induction s as [|c s IH]; intros acc acc' v.
  - simpl. intros [= <-]. f_equal. lia.
  - rewrite !number_from_cons, length_cons.
    destruct (Text.is_digit c); [|discriminate]. intros H.
    rewrite (IH _ (10 * acc' + (Z.of_nat (nat_of_ascii c) - 48)) _ H).
    f_equal. rewrite Z.pow_succ_r by lia. ring.
Qed.

Lemma number_from_bounds (s : string) (acc v : Z) :
  Text.number_from acc s = Some v ->
  acc * 10 ^ Z.of_nat (String.length s) <= v
  < (acc + 1) * 10 ^ Z.of_nat (String.length s).
Proof.
  revert acc v. induction s as [|c s IH]; intros acc v.
  - simpl. intros [= <-]. lia.
  - rewrite number_from_cons, length_cons.
    destruct (Text.is_digit c) eqn:Ec; [|discriminate]. intros H.
    apply IH in H. apply is_digit_range in Ec.
    rewrite Z.pow_succ_r by lia.
    assert (0 < 10 ^ Z.of_nat (String.length s))
      by (apply Z.pow_pos_nonneg; lia).
    nia.
Qed.

Lemma number_from_app (a b : string) (acc v : Z) :
  Text.number_from acc (a ++ b) = Some v ->
  exists w, Text.number_from acc a = Some w /\ Text.number_from w b = Some v.
Proof.
  revert acc. induction a as [|c a IH]; intros acc.
  - simpl. intros H. now exists acc.
  - change ((String c a ++ b)%string) with (String c (a ++ b)).
    rewrite !number_from_cons.
    destruct (Text.is_digit c); [apply IH | discriminate].
Qed.

Lemma number_nonempty (s : string) (v : Z) :
  Text.number s = Some v ->
  s <> "" /\ Text.number_from 0 s = Some v.
Proof. destruct s; [discriminate|]. intros H. split; [discriminate | exact H]. Qed.

Lemma number_of_from (s : string) (v : Z) :
  s <> "" -> Text.number_from 0 s = Some v -> Text.number s = Some v.
Proof. destruct s; [congruence|]. intros _ H. exact H. Qed.

Lemma numeral_lt (s : string) (v : Z) :
  Text.number s = Some v -> 0 <= v < 10 ^ Z.of_nat (String.length s).
Proof.
  intros H. apply number_nonempty in H as [_ H].
  apply number_from_bounds in H. lia.
Qed.

Lemma numeral_ge (s : string) (v : Z) :
  numeral s v -> (2 <= String.length s)%nat ->
  10 ^ (Z.of_nat (String.length s) - 1) <= v.
Proof.
  intros [Hn Hz] Hlen.
  destruct s as [|c [|c2 s]]; simpl in Hlen; try lia.
  apply number_nonempty in Hn as [_ Hn]. rewrite number_from_cons in Hn.
  destruct (Text.is_digit c) eqn:Ec; [|discriminate].
  pose proof (digit_nonzero c Ec Hz) as Hd.
  apply number_from_bounds in Hn.
  rewrite (length_cons c).
  replace (Z.succ (Z.of_nat (String.length (String c2 s))) - 1)
    with (Z.of_nat (String.length (String c2 s))) by lia.
  assert (0 < 10 ^ Z.of_nat (String.length (String c2 s)))
    by (apply Z.pow_pos_nonneg; lia).
  nia.
Qed.

Ltac digit_step :=
  rewrite number_from_cons;
  match goal with
  | |- context [Text.is_digit ?c] => change (Text.is_digit c) with true
  end;
  match goal with
  | |- context [Z.of_nat (nat_of_ascii ?c)] =>
      let v := eval vm_compute in (Z.of_nat (nat_of_ascii c)) in
      change (Z.of_nat (nat_of_ascii c)) with v
  end;
  cbv iota.

Lemma number_of_uint_acc (d : Decimal.uint) (acc : positive) :
  Text.number_from (Zpos acc) (NilEmpty.string_of_uint d)
  = Some (Zpos (Pos.of_uint_acc d acc)).
Proof.
  revert acc.
  induction d as [|d IH|d IH|d IH|d IH|d IH|d IH|d IH|d IH|d IH|d IH];
    intros acc; [reflexivity|..];
    cbn [NilEmpty.string_of_uint Pos.of_uint_acc];
    digit_step; rewrite <- IH; f_equal; lia.
Qed.

Lemma number_of_uint (d : Decimal.uint) :
  Text.number_from 0 (NilEmpty.string_of_uint d)
  = Some (Z.of_N (Pos.of_uint d)).
Proof.
  induction d as [|d IH|d IH|d IH|d IH|d IH|d IH|d IH|d IH|d IH|d IH];
    [reflexivity| |..];
    cbn [NilEmpty.string_of_uint Pos.of_uint];
    digit_step;
    [exact IH|..]; cbn [Z.of_N]; rewrite <- number_of_uint_acc; f_equal.
Qed.

Lemma to_uint_normal (n : N) :
  match N.to_uint n with
  | Decimal.Nil => False
  | Decimal.D0 (Decimal.Nil) => True
  | Decimal.D0 _ => False
  | _ => True
  end.
Proof.
  assert (E : unorm (N.to_uint n) = N.to_uint n).
  { rewrite <- (DecimalN.Unsigned.to_of (N.to_uint n)).
    now rewrite DecimalN.Unsigned.of_to. }
  destruct (N.to_uint n) as [|u|u|u|u|u|u|u|u|u|u]; try exact I.
  - discriminate E.
  - rewrite DecimalFacts.unorm_D0 in E.
    destruct u as [|w|w|w|w|w|w|w|w|w|w]; try exact I;
      match type of E with
      | unorm ?x = _ =>
          assert (Hx : x <> Decimal.Nil) by discriminate;
          pose proof (DecimalFacts.nb_digits_unorm x Hx) as Hnb;
          rewrite E in Hnb; simpl in Hnb; lia
      end.
Qed.

(** What [Fmt.digits] writes for a count is its numeral. *)
Lemma digits_numeral (n : Z) : 0 <= n -> numeral (Fmt.digits n) n.
Proof.
  intros Hn. unfold Fmt.digits.
  pose proof (to_uint_normal (Z.to_N n)) as Hnorm.
  pose proof (DecimalN.Unsigned.of_to (Z.to_N n)) as Hval.
  unfold N.of_uint in Hval.
  pose proof (number_of_uint (N.to_uint (Z.to_N n))) as Hnum.
  rewrite Hval, Z2N.id in Hnum by exact Hn.
  destruct (N.to_uint (Z.to_N n)) as [|u|u|u|u|u|u|u|u|u|u];
    try contradiction;
    (split; [exact Hnum|]);
    destruct u as [|u|u|u|u|u|u|u|u|u|u];
    try contradiction; try exact I; reflexivity.
Qed.

Lemma pow10_pos (k : Z) : 0 <= k -> 0 < 10 ^ k.
Proof. intros Hk. apply Z.pow_pos_nonneg; lia. Qed.

Lemma numeral_length_le (s : string) (v : Z) (k : nat) :
  numeral s v -> (1 <= k)%nat -> v < 10 ^ Z.of_nat k ->
  (String.length s <= k)%nat.
Proof.
  intros Hs Hk Hv.
  destruct (Nat.le_gt_cases (String.length s) k) as [H|H]; [exact H|].
  exfalso. pose proof (numeral_ge s v Hs ltac:(lia)) as Hge.
  assert (10 ^ Z.of_nat k <= 10 ^ (Z.of_nat (String.length s) - 1))
    by (apply Z.pow_le_mono_r; lia).
  lia.
Qed.

Lemma numeral_length_gt (s : string) (v : Z) (k : nat) :
  Text.number s = Some v -> 10 ^ Z.of_nat k <= v ->
  (k < String.length s)%nat.
Proof.
  intros Hs Hv.
  destruct (Nat.le_gt_cases (String.length s) k) as [H|H]; [|exact H].
  exfalso. pose proof (numeral_lt s v Hs) as Hlt.
  assert (10 ^ Z.of_nat (String.length s) <= 10 ^ Z.of_nat k)
    by (apply Z.pow_le_mono_r; lia).
  lia.
Qed.

(** The last three digits of a numeral are the count modulo one
    thousand, and the digits before them are the thousands. *)
Lemma number_split (a b : string) (n : Z) :
  a <> "" -> String.length b = 3%nat ->
  Text.number (a ++ b) = Some n ->
  Text.number a = Some (n / 1000) /\ Text.number b = Some (n mod 1000).
Proof.
  intros Ha Hb Hn.
  apply number_nonempty in Hn as [_ Hn].
  apply number_from_app in Hn as (w & Hw & Hwb).
  assert (H0 : exists v, Text.number_from 0 b = Some v).
  { destruct (Text.number_from 0 b) as [v|] eqn:E; [now exists v|].
    exfalso. clear - Hwb E. revert w Hwb E. generalize 0.
    induction b as [|c b IH]; intros z w; [discriminate|].
    rewrite !number_from_cons. destruct (Text.is_digit c); [|discriminate].
    intros H1 H2. exact (IH _ _ H1 H2). }
  destruct H0 as (v & Hv).
  pose proof (number_from_shift b 0 w v Hv) as Hs.
  rewrite Hwb, Hb in Hs. injection Hs as Hs.
  pose proof (number_from_bounds b 0 v Hv) as Hbd. rewrite Hb in Hbd.
  change (10 ^ Z.of_nat 3) with 1000 in *.
  assert (Ew : w = n / 1000) by (apply Z.div_unique with v; lia).
  assert (Ev : v = n mod 1000) by (apply Z.mod_unique with w; lia).
  split.
  - apply number_of_from; [exact Ha | now rewrite <- Ew].
  - apply number_of_from; [destruct b; [discriminate Hb | discriminate]|].
    now rewrite <- Ev.
Qed.

Lemma group_thousands_short (s : string) :
  (String.length s <= 3)%nat -> Fmt.group_thousands s = s.
Proof.
  destruct s as [|c1 [|c2 [|c3 [|c4 s]]]]; simpl String.length;
    intros H; try reflexivity; lia.
Qed.

Lemma group_thousands_split (s : string) (n : Z) :
  numeral s n -> (4 <= String.length s <= 6)%nat ->
  exists a b,
    Fmt.group_thousands s = a ++ "," ++ b
    /\ numeral a (n / 1000)
    /\ String.length b = 3%nat
    /\ Text.number b = Some (n mod 1000).
Proof.
  intros [Hn Hz] Hlen.
  destruct s as [|c1 [|c2 [|c3 [|c4 [|c5 [|c6 [|c7 s]]]]]]];
    simpl String.length in Hlen; try lia.
  - exists (String c1 ""), (String c2 (String c3 (String c4 ""))).
    destruct (number_split (String c1 "")
                (String c2 (String c3 (String c4 ""))) n) as [Ha Hb];
      [discriminate | reflexivity | exact Hn |].
    repeat split; try assumption; reflexivity.
  - exists (String c1 (String c2 "")), (String c3 (String c4 (String c5 ""))).
    destruct (number_split (String c1 (String c2 ""))
                (String c3 (String c4 (String c5 ""))) n) as [Ha Hb];
      [discriminate | reflexivity | exact Hn |].
    repeat split; try assumption; reflexivity.
  - exists (String c1 (String c2 (String c3 ""))),
      (String c4 (String c5 (String c6 ""))).
    destruct (number_split (String c1 (String c2 (String c3 "")))
                (String c4 (String c5 (String c6 ""))) n) as [Ha Hb];
      [discriminate | reflexivity | exact Hn |].
    repeat split; try assumption; reflexivity.
Qed.

(** The two decimals: two digits whose value is the hundredths. *)
Lemma two_digits_numeral (f : Z) :
  0 <= f < 100 ->
  String.length (Fmt.two_digits f) = 2%nat
  /\ Text.number (Fmt.two_digits f) = Some f.
Proof.
  intros Hf. pose proof (digits_numeral f ltac:(lia)) as Hd.
  pose proof Hd as [Hnum _].
  pose proof (number_nonempty _ _ Hnum) as [Hne Hfrom].
  unfold Fmt.two_digits. destruct (f <? 10) eqn:E.
  - apply Z.ltb_lt in E.
    pose proof (numeral_length_le _ _ 1 Hd ltac:(lia) ltac:(simpl; lia)) as Hl.
    destruct (Fmt.digits f) as [|c [|c2 s]]; simpl in Hl;
      [congruence | | lia].
    split; [reflexivity | exact Hfrom].
  - apply Z.ltb_ge in E.
    pose proof (numeral_length_le _ _ 2 Hd ltac:(lia) ltac:(simpl; lia)) as Hl.
    pose proof (numeral_length_gt _ _ 1 Hnum ltac:(simpl; lia)) as Hg.
    split; [lia | exact Hnum].
Qed.

(** C5.  The "Total de Doses" figure, read back as text.  A count below
    one thousand is shown as its own decimal numeral; from one thousand
    up to 999999 as the numeral of its thousands, a comma, and the three
    digits of the rest; from one million up (and for any count below
    2^52) as a numeral [a], a point, exactly two digits [b] and the
    label [ Mi], where the hundredths [100 * a + b] are within half a
    hundredth of the count divided by one million; 999999 reads
    [999,999], 1200000 reads [1.20 Mi] and 1050000 reads [1.05 Mi]. *)
Theorem metric_total_doses_threshold :
  (forall n, 0 <= n < 1000 -> numeral (metric_total_doses n) n)
  /\ (forall n, 1000 <= n < 1000000 ->
        exists a b,
          metric_total_doses n = a ++ "," ++ b
          /\ numeral a (n / 1000)
          /\ String.length b = 3%nat
          /\ Text.number b = Some (n mod 1000))
  /\ (forall n, 1000000 <= n < 2 ^ 52 ->
        exists a b I F,
          metric_total_doses n = a ++ "." ++ b ++ " Mi"
          /\ numeral a I
          /\ String.length b = 2%nat
          /\ Text.number b = Some F
          /\ 10000 * (100 * I + F) - 5000 <= n
             <= 10000 * (100 * I + F) + 5000)
  /\ metric_total_doses 999999 = "999,999"
  /\ metric_total_doses 1200000 = "1.20 Mi"
  /\ metric_total_doses 1050000 = "1.05 Mi".
Proof.
  split; [|split; [|split; [|repeat split; vm_compute; reflexivity]]].
  - intros n Hn. rewrite metric_below_million by lia.
    pose proof (digits_numeral n ltac:(lia)) as Hd.
    rewrite group_thousands_short; [exact Hd|].
    apply (numeral_length_le _ n); [exact Hd | lia |].
    change (10 ^ Z.of_nat 3) with 1000. lia.
  - intros n Hn. rewrite metric_below_million by lia.
    pose proof (digits_numeral n ltac:(lia)) as Hd.
    apply group_thousands_split; [exact Hd|]. split.
    + apply (numeral_length_gt _ n 3); [exact (proj1 Hd)|].
      change (10 ^ Z.of_nat 3) with 1000. lia.
    + apply (numeral_length_le _ n); [exact Hd | lia |].
      change (10 ^ Z.of_nat 6) with 1000000. lia.
  - intros n Hn. destruct (metric_above_million n Hn) as (h & Htext & Hh).
    assert (Hh100 : 100 <= h) by lia.
    pose proof (Z.div_mod h 100 ltac:(lia)) as Hdm.
    pose proof (Z.mod_pos_bound h 100 ltac:(lia)) as Hm.
    assert (HI : 0 <= h / 100) by (apply Z.div_pos; lia).
    destruct (two_digits_numeral (h mod 100) Hm) as [Hlen Hnum].
    exists (Fmt.digits (h / 100)), (Fmt.two_digits (h mod 100)),
      (h / 100), (h mod 100).
    split; [|split; [|split; [|split]]].
    + rewrite Htext, append_assoc. reflexivity.
    + apply digits_numeral. exact HI.
    + exact Hlen.
    + exact Hnum.
    + lia.
Qed.

(** ** The theorems on the sample data *)

Example metric_samples :
  metric_total_doses 0 = "0"
  /\ metric_total_doses 1234 = "1,234"
  /\ metric_total_doses 1000000 = "1.00 Mi"
  /\ metric_total_doses 1005000 = "1.00 Mi"
  /\ metric_total_doses 1015000 = "1.01 Mi"
  /\ metric_total_doses 123456789 = "123.46 Mi".
Proof. repeat split; vm_compute; reflexivity. Qed.

Lemma sample_loads :
  load_data to_datetime_dmY to_numeric_decimal cast_overflow_x86 sample_lines
  = Frame sample_df.
Proof. vm_compute. reflexivity. Qed.

Example sample_df_labels : map index sample_df = [0; 1; 2; 4]%nat.
Proof. vm_compute. reflexivity. Qed.

(** The fourth line of the sample has neither a date nor an age that
    parses, and leaves no row in the loaded frame. *)
Lemma age_coercion_needs_date :
  option_map Csv.dt_vacina (nth_error sample_lines 3)
    = Some (Some "31/02/2025")
  /\ option_map Csv.nu_idade_paciente (nth_error sample_lines 3)
     = Some (Some "abc")
  /\ to_datetime_dmY (Some "31/02/2025") = None
  /\ to_numeric_decimal (Some "abc") = None
  /\ load_data to_datetime_dmY to_numeric_decimal cast_overflow_x86
       sample_lines
     = Frame sample_df
  /\ ~ In 3%nat (map index sample_df).
Proof.
  repeat split; try reflexivity.
  vm_compute. intuition discriminate.
Qed.

Lemma sample_ages_finite (j : nat) (c : Csv.row) (s : bool) :
  nth_error sample_lines j = Some c ->
  notna (to_datetime_dmY (Csv.dt_vacina c)) = true ->
  to_numeric_decimal (Csv.nu_idade_paciente c) <> Some (Infinite s).
Proof.
  intros Hn _. do 5 (destruct j as [|j]; [injection Hn as <-; discriminate|]).
  destruct j; discriminate.
Qed.

(** The second line of the sample, dated and of age [n/d]. *)
Lemma age_coercion_witness :
  exists df r,
    load_data to_datetime_dmY to_numeric_decimal cast_overflow_x86 sample_lines
    = Frame df
    /\ In r df
    /\ index r = 1%nat
    /\ tp_sexo_paciente r = Some "M"
    /\ nu_idade_paciente r = 0
    /\ In r (filter (between_idade (0, 0)) df).
Proof.
  exact (age_coercion to_datetime_dmY to_numeric_decimal cast_overflow_x86
           sample_lines 1
           (line (Some "15/03/2025") (Some "M") (Some "BRANCA") (Some "RJ")
              (Some "INFLUENZA") (Some "BUTANTAN") (Some "n/d"))
           {| ts_date := mkDate 2025 3 15; ts_time := 0 |}
           sample_ages_finite eq_refl eq_refl eq_refl).
Defined.

Lemma load_data_dates_witness :
  (forall r, In r sample_df -> exists ts, dt_vacina r = Some ts)
  /\ (forall i c,
        nth_error sample_lines i = Some c ->
        to_datetime_dmY (Csv.dt_vacina c) = None ->
        ~ In i (map index sample_df))
  /\ (forall ui r,
        In r (view_date sample_df ui)
        \/ In r (view_sexo sample_df ui)
        \/ In r (view_raca sample_df ui)
        \/ In r (view_uf sample_df ui)
        \/ In r (view_vacina sample_df ui)
        \/ In r (view_idade sample_df ui) ->
        In r sample_df /\ exists ts, dt_vacina r = Some ts).
Proof.
  exact (load_data_dates_valid to_datetime_dmY to_numeric_decimal
           cast_overflow_x86 sample_lines sample_df sample_loads).
Defined.

Lemma age_bounds_fail_witness :
  view_vacina sample_df ui_no_sexo = []
  /\ snd (script true sort_by_dose sample_df ui_no_sexo) = ValueError
  /\ slider_idade (fst (script true sort_by_dose sample_df ui_no_sexo)) = None
  /\ snd (script true sort_by_dose sample_df ui_no_sexo) <> EmptyResult.
Proof.
  split; [reflexivity|].
  apply (age_bounds_fail_on_empty_view true sort_by_dose sample_df ui_no_sexo).
  reflexivity.
Defined.

Lemma empty_selection_witness :
  selected_sexo ui_no_sexo = []
  /\ view_idade sample_df ui_no_sexo = []
  /\ snd (script false sort_by_dose sample_df ui_no_sexo) = ValueError.
Proof.
  split; [reflexivity|].
  apply (empty_selection_raises false sort_by_dose sample_df ui_no_sexo Sexo).
  reflexivity.
Defined.

Lemma single_date_witness :
  date_range ui_one_date = [mkDate 2025 3 15]
  /\ view_date sample_df ui_one_date = sample_df
  /\ options_sexo (fst (script true sort_by_dose sample_df ui_one_date))
     = unique (map tp_sexo_paciente sample_df)
  /\ view_sexo sample_df ui_one_date
     = filter (fun r => isin (selected_sexo ui_one_date) (tp_sexo_paciente r))
         sample_df.
Proof.
  split; [reflexivity|].
  apply (single_date_skips_date_stage true sort_by_dose sample_df ui_one_date).
  simpl. lia.
Defined.

(** On the first run over the sample the dose of index 4, which has no
    state, is counted in the total and in no state. *)
Lemma sum_invariant_missing_state :
  (exists d,
     snd (script true sort_by_dose sample_df ui_first_run) = Rendered d
     /\ total_doses d = 4
     /\ sum_values (df_uf_doses d) = 3)
  /\ (exists d,
        snd (script false sort_by_dose sample_df ui_first_run) = Rendered d
        /\ total_doses d = 4
        /\ sum_values (df_uf_doses d) = 3).
Proof.
  split; eexists; (split; [vm_compute; reflexivity|]); split; reflexivity.
Qed.

Lemma sum_invariant_witness :
  let d := aggregate true sort_by_dose sample_df
             (view_idade sample_df ui_named_uf) in
  snd (script true sort_by_dose sample_df ui_named_uf) = Rendered d
  /\ total_doses d = 3
  /\ sum_values (df_uf_doses d) = total_doses d
  /\ sum_values (df_raca_doses d) = total_doses d
  /\ sum_values (df_sexo_doses d) = total_doses d.
Proof.
  assert (Hrun : snd (script true sort_by_dose sample_df ui_named_uf)
                 = Rendered (aggregate true sort_by_dose sample_df
                               (view_idade sample_df ui_named_uf)))
    by (vm_compute; reflexivity).
  split; [exact Hrun|]. split; [reflexivity|].
  destruct (sum_invariant to_datetime_dmY to_numeric_decimal
              cast_overflow_x86 true sort_by_dose
              sort_by_dose_perm sample_lines sample_df ui_named_uf _
              sample_loads Hrun)
    as (_ & H1 & H2 & H3 & _).
  - intros r Hr. vm_compute in Hr.
    destruct Hr as [<-|[<-|[<-|[]]]]; repeat split; discriminate.
  - auto.
Defined.

Lemma top10_fabricantes_witness :
  let d := aggregate true sort_by_dose sample_df
             (view_idade sample_df ui_first_run) in
  df_fabricante_doses d = [("PFIZER", 2); ("BUTANTAN", 1)]
  /\ (List.length (df_fabricante_doses d) <= 10)%nat
  /\ (forall e k,
        In e (df_fabricante_doses d) ->
        ~ In k (map fst (df_fabricante_doses d)) ->
        group_sum ds_vacina_fabricante (view_idade sample_df ui_first_run) k
        <= snd e).
Proof.
  split; [vm_compute; reflexivity|].
  destruct (top10_fabricantes to_datetime_dmY to_numeric_decimal
              cast_overflow_x86 true
              sort_by_dose sort_by_dose_perm sort_by_dose_desc
              sample_lines sample_df ui_first_run
              (aggregate true sort_by_dose sample_df
                 (view_idade sample_df ui_first_run)) sample_loads)
    as (H1 & _ & H3).
  - vm_compute. reflexivity.
  - split; assumption.
Defined.

(** * Further properties of the loader and of the run *)

(** ** Lists *)

Lemma filter_all {A} (f : A -> bool) (l : list A) :
  (forall x, In x l -> f x = true) -> filter f l = l.
Proof.
  induction l as [|x l IH]; intros H; simpl; [reflexivity|].
  rewrite (H x) by now left. f_equal. apply IH. intros; apply H; now right.
Qed.

Lemma filter_none {A} (f : A -> bool) (l : list A) :
  (forall x, In x l -> f x = false) -> filter f l = [].
Proof.
  induction l as [|x l IH]; intros H; simpl; [reflexivity|].
  rewrite (H x) by now left. apply IH. intros; apply H; now right.
Qed.

Lemma filter_twice {A} (f g : A -> bool) (l : list A) :
  filter f (filter g l) = filter (fun x => g x && f x) l.
Proof.
  induction l as [|x l IH]; simpl; [reflexivity|].
  destruct (g x); simpl; [destruct (f x)|]; now rewrite IH.
Qed.

Lemma filter_split_length {A} (f : A -> bool) (l : list A) :
  (List.length (filter f l)
   + List.length (filter (fun x => negb (f x)) l))%nat = List.length l.
Proof.
  induction l as [|x l IH]; simpl; [reflexivity|].
  destruct (f x); simpl; lia.
Qed.

Lemma filter_length_le {A} (f : A -> bool) (l : list A) :
  (List.length (filter f l) <= List.length l)%nat.
Proof. pose proof (filter_split_length f l). lia. Qed.

Lemma series_min_In (s : list Z) (m : Z) : series_min s = Some m -> In m s.
Proof.
  destruct s as [|x xs]; simpl; [discriminate|]. intros [= <-].
  revert x. induction xs as [|y xs IH]; intros x; simpl; [now left|].
  destruct (IH (Z.min x y)) as [H|H]; [|right; right; exact H].
  simpl. rewrite <- H. destruct (Z.min_spec x y) as [[_ E]|[_ E]]; rewrite E; auto.
Qed.

Lemma series_max_In (s : list Z) (m : Z) : series_max s = Some m -> In m s.
Proof.
  destruct s as [|x xs]; simpl; [discriminate|]. intros [= <-].
  revert x. induction xs as [|y xs IH]; intros x; simpl; [now left|].
  destruct (IH (Z.max x y)) as [H|H]; [|right; right; exact H].
  simpl. rewrite <- H. destruct (Z.max_spec x y) as [[_ E]|[_ E]]; rewrite E; auto.
Qed.

(** ** How a run ends *)

Section RunFacts.

Variable observed : bool.
Variable sort_values : list (string * Z) -> list (string * Z).

Local Abbreviation run := (script observed sort_values).
Local Abbreviation charts := (aggregate observed sort_values).

(** X4.  The three ways a run ends, read off the views: ValueError
    exactly when nothing reaches the age stage, the empty result exactly
    when the age interval alone removes every remaining row, and the
    page otherwise, drawn from the final view.  On the sample the
    interval from 10 to 20 gives the empty result. *)
Theorem run_outcomes :
  (forall df ui,
     (snd (run df ui) = ValueError <-> view_vacina df ui = [])
     /\ (snd (run df ui) = EmptyResult <->
         view_vacina df ui <> [] /\ view_idade df ui = [])
     /\ (forall d, snd (run df ui) = Rendered d <->
           view_idade df ui <> [] /\ d = charts df (view_idade df ui)))
  /\ snd (run sample_df ui_age_gap) = EmptyResult.
Proof.
  split; [|rewrite script_outcome; reflexivity].
  intros df ui. rewrite script_outcome.
  pose proof (@view_idade_incl df ui) as Hincl.
  destruct (view_vacina df ui) as [|r0 v] eqn:Ev.
  - assert (Ei : view_idade df ui = []).
    { destruct (view_idade df ui) as [|r v'] eqn:Ei; [reflexivity|].
      destruct (Hincl r). now left. }
    rewrite Ei. repeat split; try congruence; try discriminate.
    + intros [H _]. congruence.
    + intros [H _]. congruence.
  - destruct (view_idade df ui) as [|r1 v'] eqn:Ei.
    + repeat split; try congruence; try discriminate.
      intros [H _]. congruence.
    + repeat split; try congruence; try discriminate.
      * intros [_ H]. discriminate.
      * intros [_ ->]. reflexivity.
Qed.

Lemma slider_encloses df ui (lo hi : Z) :
  slider_idade (fst (run df ui)) = Some (lo, hi) ->
  view_vacina df ui <> []
  /\ forall r, In r (view_vacina df ui) -> lo <= nu_idade_paciente r <= hi.
Proof.
  rewrite script_slider.
  destruct (series_min (map nu_idade_paciente (view_vacina df ui)))
    as [mn|] eqn:Emin; [|discriminate].
  destruct (series_max (map nu_idade_paciente (view_vacina df ui)))
    as [mx|] eqn:Emax; [|discriminate].
  intros [= <- <-]. split.
  - intros E. rewrite E in Emin. discriminate.
  - pose proof (series_min_le _ _ Emin) as Hlo.
    pose proof (series_max_ge _ _ Emax) as Hhi.
    rewrite Forall_forall in Hlo, Hhi.
    intros r Hr. split; [apply Hlo | apply Hhi]; now apply in_map.
Qed.

(** X5.  The limits of the age slider are the least and the greatest
    age of the rows that reach the age stage: both are ages of such
    rows and every such row lies between them; there is no slider
    exactly when no row reaches the stage. *)
Theorem slider_bounds df ui :
  (slider_idade (fst (run df ui)) = None <-> view_vacina df ui = [])
  /\ (forall lo hi,
        slider_idade (fst (run df ui)) = Some (lo, hi) ->
        lo <= hi
        /\ (exists r, In r (view_vacina df ui) /\ nu_idade_paciente r = lo)
        /\ (exists r, In r (view_vacina df ui) /\ nu_idade_paciente r = hi)
        /\ (forall r, In r (view_vacina df ui) ->
              lo <= nu_idade_paciente r <= hi)).
Proof.
  rewrite script_slider.
  destruct (series_min (map nu_idade_paciente (view_vacina df ui)))
    as [mn|] eqn:Emin;
    destruct (series_max (map nu_idade_paciente (view_vacina df ui)))
      as [mx|] eqn:Emax.
  - split.
    + split; [discriminate|]. intros H. rewrite H in Emin. discriminate.
    + intros lo hi [= <- <-].
      pose proof (series_min_In _ _ Emin) as Hi.
      pose proof (series_max_In _ _ Emax) as Ha.
      pose proof (series_min_le _ _ Emin) as Hlo.
      pose proof (series_max_ge _ _ Emax) as Hhi.
      rewrite Forall_forall in Hlo, Hhi.
      apply in_map_iff in Hi as (ri & Eri & Hri).
      apply in_map_iff in Ha as (ra & Era & Hra).
      assert (Hall : forall r, In r (view_vacina df ui) ->
                mn <= nu_idade_paciente r <= mx).
      { intros r Hr. split; [apply Hlo | apply Hhi]; now apply in_map. }
      split; [specialize (Hall ri Hri); lia|].
      split; [now exists ri|]. split; [now exists ra | exact Hall].
  - apply series_max_None in Emax. rewrite Emax in Emin. discriminate.
  - apply series_min_None in Emin. rewrite Emin in Emax. discriminate.
  - apply series_min_None, map_eq_nil in Emin.
    split; [tauto | discriminate].
Qed.

(** X6.  When every multiselect returns the very options it offered and
    the slider its full interval, as on a first run, no stage after the
    date stage removes a row: the page is drawn from the view of the
    date stage and the total is its number of rows. *)
Theorem defaults_keep_every_row df ui :
  selected_sexo ui = options_sexo (fst (run df ui)) ->
  selected_raca_cor ui = options_raca_cor (fst (run df ui)) ->
  selected_uf_aplicacao ui = options_uf_aplicacao (fst (run df ui)) ->
  selected_tipo_vacina ui = options_tipo_vacina (fst (run df ui)) ->
  slider_idade (fst (run df ui)) = Some (idade_range ui) ->
  view_idade df ui = view_date df ui
  /\ snd (run df ui) = Rendered (charts df (view_date df ui))
  /\ total_doses (charts df (view_date df ui))
     = Z.of_nat (List.length (view_date df ui)).
Proof.
  intros H1 H2 H3 H4 H5.
  destruct (script_sidebar observed sort_values df ui) as (O1 & O2 & O3 & O4).
  rewrite O1 in H1. rewrite O2 in H2. rewrite O3 in H3. rewrite O4 in H4.
  assert (Hkeep : forall (col : Row -> cell) (view : DataFrame),
            filter (fun r => isin (unique (map col view)) (col r)) view = view).
  { intros col view. apply filter_all. intros r Hr.
    apply isin_In, unique_In. now apply in_map. }
  assert (E1 : view_sexo df ui = view_date df ui)
    by (unfold view_sexo; rewrite H1; apply Hkeep).
  assert (E2 : view_raca df ui = view_date df ui)
    by (unfold view_raca; rewrite H2, E1; apply Hkeep).
  assert (E3 : view_uf df ui = view_date df ui)
    by (unfold view_uf; rewrite H3, E2; apply Hkeep).
  assert (E4 : view_vacina df ui = view_date df ui)
    by (unfold view_vacina; rewrite H4, E3; apply Hkeep).
  destruct (idade_range ui) as [lo hi] eqn:Er.
  destruct (slider_encloses df ui lo hi H5) as [Hne Hall].
  assert (E5 : view_idade df ui = view_date df ui).
  { unfold view_idade. rewrite <- E4. apply filter_all.
    intros r Hr. unfold between_idade. rewrite Er. simpl.
    specialize (Hall r Hr). apply andb_true_iff.
    rewrite Z.geb_le, Z.leb_le. lia. }
  split; [exact E5|]. split; [|reflexivity].
  rewrite script_outcome, E5, E4.
  rewrite E4 in Hne. destruct (view_date df ui); [congruence | reflexivity].
Qed.

(** X7.  The final view is the loaded frame under the six masks taken
    together, in frame order: a row is in it exactly when it is in the
    frame and passes every mask, whatever the order of the stages. *)
Theorem cascade_is_one_mask df ui :
  view_idade df ui = filter (passes ui) df
  /\ (forall r, In r (view_idade df ui) <->
        In r df
        /\ date_mask (date_range ui) r = true
        /\ In (tp_sexo_paciente r) (selected_sexo ui)
        /\ In (no_raca_cor_paciente r) (selected_raca_cor ui)
        /\ In (sg_uf_estabelecimento r) (selected_uf_aplicacao ui)
        /\ In (ds_vacina r) (selected_tipo_vacina ui)
        /\ fst (idade_range ui) <= nu_idade_paciente r <= snd (idade_range ui)).
Proof.
  assert (E : view_idade df ui = filter (passes ui) df).
  { unfold view_idade, view_vacina, view_uf, view_raca, view_sexo, view_date.
    assert (Ed : date_stage df (date_range ui)
                 = filter (date_mask (date_range ui)) df).
    { unfold date_stage, date_mask.
      destruct (date_range ui) as [|s [|e [|x dr]]];
        try (symmetry; apply filter_true); reflexivity. }
    rewrite Ed, !filter_twice. apply filter_ext. intros r.
    unfold passes. now rewrite !andb_assoc. }
  split; [exact E|].
  intros r. rewrite E, filter_In. unfold passes, between_idade.
  rewrite !andb_true_iff, !isin_In, Z.geb_le, Z.leb_le. tauto.
Qed.

(** X8.  The options narrow along the cascade: whatever is offered for
    a dimension is a value of that column in the loaded frame, and with
    the same dates a run whose selections are contained in those of
    another is offered no option that the other is not; no option is
    offered twice. *)
Theorem options_narrow :
  (forall df ui D x,
     In x (offered D (fst (run df ui))) -> In x (unique (map (column D) df)))
  /\ (forall df ui D, NoDup (offered D (fst (run df ui))))
  /\ (forall df ui ui',
        date_range ui = date_range ui' ->
        (forall D, incl (selection D ui) (selection D ui')) ->
        forall D, incl (offered D (fst (run df ui)))
                    (offered D (fst (run df ui')))).
Proof.
  assert (Hopt : forall df ui D x,
            In x (offered D (fst (run df ui))) <->
            exists r, In r (view_before D df ui) /\ column D r = x).
  { intros df ui D x.
    destruct (script_sidebar observed sort_values df ui) as (O1 & O2 & O3 & O4).
    assert (E : offered D (fst (run df ui))
                = unique (map (column D) (view_before D df ui)))
      by (destruct D; assumption).
    rewrite E, unique_In, in_map_iff. split; intros (r & A & B); eauto. }
  assert (Hbefore : forall df ui D, incl (view_before D df ui) df).
  { intros df ui D. destruct D.
    - apply view_date_incl.
    - apply view_sexo_incl_df.
    - apply view_raca_incl_df.
    - apply view_uf_incl_df. }
  split; [|split].
  - intros df ui D x Hx. apply Hopt in Hx as (r & Hr & <-).
    apply unique_In, in_map. now apply (Hbefore df ui D).
  - intros df ui D.
    destruct (script_sidebar observed sort_values df ui) as (O1 & O2 & O3 & O4).
    destruct D; simpl; rewrite ?O1, ?O2, ?O3, ?O4; apply unique_NoDup.
  - intros df ui ui' Hd Hsel.
    assert (M0 : incl (view_date df ui) (view_date df ui'))
      by (unfold view_date; rewrite Hd; apply incl_refl).
    assert (Hstep : forall (D : dimension) (v v' : DataFrame),
              incl v v' ->
              incl (filter (fun r => isin (selection D ui) (column D r)) v)
                (filter (fun r => isin (selection D ui') (column D r)) v')).
    { intros D v v' Hv r Hr. apply filter_In in Hr as [Hr Hin].
      apply filter_In. split; [now apply Hv|].
      apply isin_In. apply (Hsel D). now apply isin_In. }
    assert (M1 : incl (view_sexo df ui) (view_sexo df ui'))
      by (apply (Hstep Sexo), M0).
    assert (M2 : incl (view_raca df ui) (view_raca df ui'))
      by (apply (Hstep RacaCor), M1).
    assert (M3 : incl (view_uf df ui) (view_uf df ui'))
      by (apply (Hstep UfAplicacao), M2).
    intros D x Hx. apply Hopt in Hx as (r & Hr & <-). apply Hopt.
    exists r. split; [|reflexivity].
    destruct D; [apply M0 | apply M1 | apply M2 | apply M3]; exact Hr.
Qed.

End RunFacts.

(** ** The limits of the date input *)

Lemma ts_leb_spec (a b : Timestamp) :
  ts_leb a b = true <->
  year (ts_date a) < year (ts_date b)
  \/ (year (ts_date a) = year (ts_date b)
      /\ (month (ts_date a) < month (ts_date b)
          \/ (month (ts_date a) = month (ts_date b)
              /\ (day (ts_date a) < day (ts_date b)
                  \/ (day (ts_date a) = day (ts_date b)
                      /\ (ts_time a <= ts_time b)%N))))).
Proof.
  unfold ts_leb, date_eqb, date_leb.
  destruct (Z.eqb_spec (year (ts_date a)) (year (ts_date b)));
    destruct (Z.eqb_spec (month (ts_date a)) (month (ts_date b)));
    destruct (Z.eqb_spec (day (ts_date a)) (day (ts_date b)));
    cbn [andb];
    rewrite ?orb_true_iff, ?andb_true_iff, ?Z.ltb_lt, ?Z.eqb_eq, ?Z.leb_le,
      ?N.leb_le; lia.
Qed.

Lemma ts_leb_refl (a : Timestamp) : ts_leb a a = true.
Proof. apply ts_leb_spec. lia. Qed.

Lemma ts_leb_total (a b : Timestamp) : ts_leb a b = false -> ts_leb b a = true.
Proof.
  intros H. apply ts_leb_spec.
  assert (N : ~ ts_leb a b = true) by congruence.
  rewrite ts_leb_spec in N. lia.
Qed.

Lemma ts_leb_trans (a b c : Timestamp) :
  ts_leb a b = true -> ts_leb b c = true -> ts_leb a c = true.
Proof. rewrite !ts_leb_spec. lia. Qed.

Lemma ts_leb_date (a b : Timestamp) :
  ts_leb a b = true -> date_le (ts_date a) (ts_date b).
Proof. rewrite ts_leb_spec. unfold date_le. lia. Qed.

Lemma fold_ts_min_spec (ts : list Timestamp) (t : Timestamp) :
  In (fold_left ts_min ts t) (t :: ts)
  /\ forall x, In x (t :: ts) -> ts_leb (fold_left ts_min ts t) x = true.
Proof.
  revert t. induction ts as [|y ts IH]; intros t; simpl.
  - split; [now left|]. intros x [<-|[]]. apply ts_leb_refl.
  - destruct (IH (ts_min t y)) as [Hin Hle]. split.
    + destruct Hin as [Hin|Hin]; [|now right; right].
      rewrite <- Hin. unfold ts_min. destruct (ts_leb t y); auto.
    + assert (Ht : ts_leb (ts_min t y) t = true /\ ts_leb (ts_min t y) y = true).
      { unfold ts_min. destruct (ts_leb t y) eqn:E.
        - split; [apply ts_leb_refl | exact E].
        - split; [now apply ts_leb_total | apply ts_leb_refl]. }
      pose proof (Hle (ts_min t y) (or_introl eq_refl)) as H0.
      intros x [<-|[<-|Hx]].
      * eapply ts_leb_trans; [exact H0 | apply Ht].
      * eapply ts_leb_trans; [exact H0 | apply Ht].
      * apply Hle. now right.
Qed.

Lemma fold_ts_max_spec (ts : list Timestamp) (t : Timestamp) :
  In (fold_left ts_max ts t) (t :: ts)
  /\ forall x, In x (t :: ts) -> ts_leb x (fold_left ts_max ts t) = true.
Proof.
  revert t. induction ts as [|y ts IH]; intros t; simpl.
  - split; [now left|]. intros x [<-|[]]. apply ts_leb_refl.
  - destruct (IH (ts_max t y)) as [Hin Hle]. split.
    + destruct Hin as [Hin|Hin]; [|now right; right].
      rewrite <- Hin. unfold ts_max. destruct (ts_leb t y); auto.
    + assert (Ht : ts_leb t (ts_max t y) = true /\ ts_leb y (ts_max t y) = true).
      { unfold ts_max. destruct (ts_leb t y) eqn:E.
        - split; [exact E | apply ts_leb_refl].
        - split; [apply ts_leb_refl | now apply ts_leb_total]. }
      pose proof (Hle (ts_max t y) (or_introl eq_refl)) as H0.
      intros x [<-|[<-|Hx]].
      * eapply ts_leb_trans; [apply Ht | exact H0].
      * eapply ts_leb_trans; [apply Ht | exact H0].
      * apply Hle. now right.
Qed.

Lemma dropnat_In (s : list (option Timestamp)) (t : Timestamp) :
  In t (dropnat s) <-> In (Some t) s.
Proof.
  induction s as [|[y|] s IH]; simpl; [tauto| |].
  - rewrite IH. split; intros [H|H]; auto; left; congruence.
  - rewrite IH. split; [auto | intros [H|H]; [discriminate | assumption]].
Qed.

(** X3.  On a frame that has rows, all of them dated, the date input
    gets the earliest and the latest date of the frame as its limits
    and initial value, without the warning; every row lies between
    them, so the date stage under that initial value keeps the whole
    frame. *)
Theorem default_dates_keep_every_row (df : DataFrame) :
  df <> [] ->
  (forall r, In r df -> dt_vacina r <> None) ->
  exists a b,
    date_input_bounds df
    = {| min_date := Some a; max_date := Some b; warned := false |}
    /\ (exists r t, In r df /\ dt_vacina r = Some t /\ ts_date t = a)
    /\ (exists r t, In r df /\ dt_vacina r = Some t /\ ts_date t = b)
    /\ (forall r t, In r df -> dt_vacina r = Some t ->
          date_le a (ts_date t) /\ date_le (ts_date t) b)
    /\ date_stage df [a; b] = df.
Proof.
  intros Hne Hdated.
  destruct df as [|r0 df'] eqn:Edf; [congruence|]. rewrite <- Edf in *.
  assert (Hcol : forall t, In t (dropnat (map dt_vacina df)) <->
            exists r, In r df /\ dt_vacina r = Some t).
  { intros t. rewrite dropnat_In, in_map_iff.
    split; intros (r & A & B); eauto. }
  destruct (dropnat (map dt_vacina df)) as [|t0 ts] eqn:Ecol.
  { exfalso. destruct (dt_vacina r0) as [t|] eqn:E0.
    - apply (proj2 (Hcol t)). exists r0. split; [|exact E0].
      rewrite Edf. now left.
    - apply (Hdated r0); [rewrite Edf; now left | exact E0]. }
  destruct (fold_ts_min_spec ts t0) as [Imin Lmin].
  destruct (fold_ts_max_spec ts t0) as [Imax Lmax].
  set (tmin := fold_left ts_min ts t0) in *.
  set (tmax := fold_left ts_max ts t0) in *.
  assert (Hbetween : forall r t, In r df -> dt_vacina r = Some t ->
            date_le (ts_date tmin) (ts_date t)
            /\ date_le (ts_date t) (ts_date tmax)).
  { intros r t Hr Ht.
    assert (In t (t0 :: ts)) by (apply Hcol; eauto).
    split; apply ts_leb_date; [apply Lmin | apply Lmax]; assumption. }
  exists (ts_date tmin), (ts_date tmax). split.
  { rewrite Edf at 1. unfold date_input_bounds. rewrite <- Edf.
    unfold datetime_min, datetime_max. rewrite Ecol. reflexivity. }
  split; [apply Hcol in Imin as (r & A & B); now exists r, tmin|].
  split; [apply Hcol in Imax as (r & A & B); now exists r, tmax|].
  split; [exact Hbetween|].
  unfold date_stage. apply filter_all. intros r Hr.
  destruct (dt_vacina r) as [t|] eqn:Et; [|now destruct (Hdated r Hr)].
  apply between_dates_spec. exists t. split; [reflexivity|].
  now apply (Hbetween r).
Qed.

(** ** The loader *)

(** X1.  The narrowing of the age column at the end of [load_data]
    changes no age, whatever the frame: the width it picks is 8, 16 or
    32 bits and holds every age of the column, and it picks none only
    when the column is empty or some age is outside 32 bits. *)
Theorem narrowing_keeps_ages :
  (forall df, downcast df = df)
  /\ (forall ages w,
        downcast_width ages = Some w ->
        (w = 8 \/ w = 16 \/ w = 32)
        /\ Forall (fun a => wrap w a = a) ages)
  /\ (forall ages,
        downcast_width ages = None ->
        ages = [] \/ exists a, In a ages /\ (a < - 2 ^ 31 \/ 2 ^ 31 <= a)).
Proof.
  split; [exact downcast_id|]. split.
  - intros ages w Hw. split.
    + unfold downcast_width in Hw.
      destruct (series_max ages) as [mx|]; [|discriminate].
      destruct (series_min ages) as [mn|]; [|discriminate].
      destruct ((mx <=? 127) && (mn >=? -128)); [injection Hw; auto|].
      destruct ((mx <=? 32767) && (mn >=? -32768)); [injection Hw; auto|].
      destruct ((mx <=? 2147483647) && (mn >=? -2147483648));
        [injection Hw; auto | discriminate].
    + apply downcast_width_fits in Hw as [Hpos Hall].
      eapply Forall_impl; [|exact Hall]. intros a Ha. now apply wrap_id.
  - intros ages Hw. unfold downcast_width in Hw.
    destruct (series_max ages) as [mx|] eqn:Emx;
      [|left; now apply series_max_None].
    destruct (series_min ages) as [mn|] eqn:Emn;
      [|left; now apply series_min_None].
    right.
    destruct ((mx <=? 127) && (mn >=? -128)); [discriminate|].
    destruct ((mx <=? 32767) && (mn >=? -32768)); [discriminate|].
    destruct ((mx <=? 2147483647) && (mn >=? -2147483648)) eqn:E;
      [discriminate|].
    apply andb_false_iff in E as [E|E].
    + apply Z.leb_gt in E. exists mx. split; [now apply series_max_In|].
      right. change (2 ^ 31) with 2147483648. lia.
    + rewrite Z.geb_leb in E. apply Z.leb_gt in E.
      exists mn. split; [now apply series_min_In|].
      left. change (2 ^ 31) with 2147483648. lia.
Qed.

Lemma labels_sorted {A} (f : nat * A -> bool) (l : list A) (s : nat) :
  StronglySorted lt (map fst (filter f (combine (seq s (List.length l)) l)))
  /\ Forall (fun i => (s <= i < s + List.length l)%nat)
       (map fst (filter f (combine (seq s (List.length l)) l))).
Proof.
  revert s. induction l as [|x l IH]; intros s; simpl.
  - split; constructor.
  - destruct (IH (S s)) as [Hs Hb].
    assert (Hb' : Forall (fun i => (s < i < s + S (List.length l))%nat)
              (map fst (filter f (combine (seq (S s) (List.length l)) l)))).
    { eapply Forall_impl; [|exact Hb]. simpl. intros; lia. }
    destruct (f (s, x)); simpl.
    + split.
      * constructor; [exact Hs|].
        eapply Forall_impl; [|exact Hb']. simpl. intros; lia.
      * constructor; [lia|].
        eapply Forall_impl; [|exact Hb']. simpl. intros; lia.
    + split; [exact Hs|].
      eapply Forall_impl; [|exact Hb']. simpl. intros; lia.
Qed.

Lemma labels_count {A} (f : A -> bool) (l : list A) (s : nat) :
  List.length (filter (fun p => f (snd p)) (combine (seq s (List.length l)) l))
  = List.length (filter f l).
Proof.
  revert s. induction l as [|x l IH]; intros s; simpl; [reflexivity|].
  destruct (f x); simpl; now rewrite IH.
Qed.

Section LoaderAccounts.

Variable to_datetime : cell -> option Timestamp.
Variable to_numeric : cell -> option number.
Variable cast_overflow : Q -> Z.
Variable observed : bool.
Variable sort_values : list (string * Z) -> list (string * Z).

Local Abbreviation prep := (preprocess to_datetime to_numeric cast_overflow).
Local Abbreviation load := (load_data to_datetime to_numeric cast_overflow).
Local Abbreviation run := (script observed sort_values).
Local Abbreviation dated c := (notna (to_datetime (Csv.dt_vacina c))).

Lemma load_data_labels (lines : list Csv.row) (df : DataFrame) :
  load lines = Frame df ->
  map index df = map fst (dropna to_datetime (read_csv lines))
  /\ List.length df = List.length (dropna to_datetime (read_csv lines)).
Proof.
  intros Hload. apply load_data_frame in Hload.
  assert (E : map index df = map fst (dropna to_datetime (read_csv lines))).
  { apply (all_or_raise_map prep index fst _ _) in Hload; [exact Hload|].
    intros l r Hr. now apply preprocess_fields in Hr. }
  split; [exact E|].
  rewrite <- (length_map index df), E. apply length_map.
Qed.

(** X2.  The load raises exactly when a line that has a date has an
    infinite age.  Otherwise the frame it returns keeps the labels of
    the lines it keeps: they are strictly increasing positions of the
    file, one per line whose date parsed, and the rows kept and the
    lines dropped add up to the lines read. *)
Theorem load_data_accounts (lines : list Csv.row) :
  (load lines = IntCastingError <->
   exists i c s,
     nth_error lines i = Some c
     /\ dated c = true
     /\ to_numeric (Csv.nu_idade_paciente c) = Some (Infinite s))
  /\ (forall df,
        load lines = Frame df ->
        StronglySorted lt (map index df)
        /\ (forall i, In i (map index df) <->
              exists c, nth_error lines i = Some c /\ dated c = true)
        /\ (List.length df
            + List.length (filter (fun c => negb (dated c)) lines))%nat
           = List.length lines)
  /\ load_data to_datetime_dmY to_numeric_decimal cast_overflow_x86
       infinite_age_lines
     = IntCastingError.
Proof.
  split; [apply load_data_raises|]. split; [|reflexivity].
  intros df Hload.
  destruct (load_data_labels lines df Hload) as [Hlab Hlen].
  unfold dropna in Hlab, Hlen.
  split; [|split].
  - rewrite Hlab. apply labels_sorted.
  - intros i. rewrite Hlab, in_map_iff. split.
    + intros ([j c] & <- & Hin). apply filter_In in Hin as [Hin Hd].
      apply read_csv_In in Hin. now exists c.
    + intros (c & Hn & Hd). exists (i, c). split; [reflexivity|].
      apply filter_In. split; [now apply read_csv_In | exact Hd].
  - rewrite Hlen. unfold read_csv.
    rewrite (labels_count (fun c => dated c)).
    apply filter_split_length.
Qed.

(** X11.  When no line of the file has a date that parses the loaded
    frame is empty: the date input falls back to 2024-01-01 and
    2025-12-31 with the warning, every multiselect is offered nothing,
    and the run ends in ValueError whatever the widgets return. *)
Theorem undated_file_raises (lines : list Csv.row) :
  (forall c, In c lines -> to_datetime (Csv.dt_vacina c) = None) ->
  load lines = Frame []
  /\ date_input_bounds (loaded (load lines))
     = {| min_date := Some (mkDate 2024 1 1);
          max_date := Some (mkDate 2025 12 31);
          warned := true |}
  /\ forall ui,
       snd (run (loaded (load lines)) ui) = ValueError
       /\ forall D, offered D (fst (run (loaded (load lines)) ui)) = [].
Proof.
  intros Hnone.
  assert (E : load lines = Frame []).
  { unfold load_data.
    assert (Ed : dropna to_datetime (read_csv lines) = []).
    { unfold dropna. apply filter_none. intros [i c] Hin.
      apply read_csv_In, nth_error_In in Hin. simpl.
      now rewrite (Hnone c Hin). }
    rewrite Ed. reflexivity. }
  rewrite E. simpl loaded. split; [reflexivity|]. split; [reflexivity|].
  intros ui.
  assert (Hv : forall v, incl v (@nil Row) -> v = []).
  { intros [|r v] Hv; [reflexivity | destruct (Hv r); now left]. }
  split.
  - rewrite script_outcome, (Hv _ (@view_vacina_incl_df [] ui)). reflexivity.
  - intros D.
    destruct (script_sidebar observed sort_values [] ui) as (O1 & O2 & O3 & O4).
    destruct D; simpl.
    + now rewrite O1, (Hv _ (@view_date_incl [] ui)).
    + now rewrite O2, (Hv _ (@view_sexo_incl_df [] ui)).
    + now rewrite O3, (Hv _ (@view_raca_incl_df [] ui)).
    + now rewrite O4, (Hv _ (@view_uf_incl_df [] ui)).
Qed.

End LoaderAccounts.

(** ** The figures and tables of a rendered run *)

Lemma Permutation_filter_same {A} (f : A -> bool) (l l' : list A) :
  Permutation l l' -> Permutation (filter f l) (filter f l').
Proof.
  induction 1 as [|x l l' H IH|x y l|l l' l'' H1 IH1 H2 IH2]; simpl.
  - constructor.
  - destruct (f x); [now constructor | assumption].
  - destruct (f x), (f y); try reflexivity. apply perm_swap.
  - now transitivity (filter f l').
Qed.

Lemma sum_values_firstn (n : nat) (t : list (string * Z)) :
  Forall (fun e => 0 <= snd e) t -> sum_values (firstn n t) <= sum_values t.
Proof.
  unfold sum_values. revert n.
  induction t as [|e t IH]; intros n H; [destruct n; simpl; lia|].
  inversion H as [|? ? He Ht]; subst.
  assert (0 <= fold_right Z.add 0 (map snd t)).
  { clear IH H. induction Ht as [|x t Hx Ht IHt]; simpl; lia. }
  destruct n as [|n]; simpl; [lia|]. specialize (IH n Ht). lia.
Qed.

Lemma group_sum_pos col (view : DataFrame) (k : string) :
  (forall r, In r view -> Dose r = 1) ->
  (0 < group_sum col view k <-> exists r, In r view /\ col r = Some k).
Proof.
  intros Hd. split.
  - intros Hpos.
    destruct (existsb (fun r => cell_eqb (col r) (Some k)) view) eqn:E.
    + apply existsb_exists in E as (r & Hr & E). exists r.
      split; [exact Hr | now apply cell_eqb_eq].
    + rewrite group_sum_absent in Hpos; [lia|].
      intros r Hr Hk.
      assert (existsb (fun r => cell_eqb (col r) (Some k)) view = true).
      { apply existsb_exists. exists r. split; [exact Hr|].
        now apply cell_eqb_eq. }
      congruence.
  - intros (r & Hr & Hk). induction view as [|r' view IH]; [destruct Hr|].
    rewrite group_sum_cons.
    assert (0 <= group_sum col view k)
      by (apply group_sum_nonneg; intros; apply Hd; now right).
    destruct Hr as [->|Hr].
    + rewrite Hk, cell_eqb_refl, (Hd r) by now left. lia.
    + assert (0 < group_sum col view k)
        by (apply IH; [intros; apply Hd; now right | exact Hr]).
      destruct (cell_eqb (col r') (Some k)); [rewrite (Hd r') by now left|]; lia.
Qed.

Lemma unique_length (s : list cell) :
  (List.length (unique s) <= List.length s)%nat.
Proof.
  induction s as [|x s IH]; simpl; [lia|].
  pose proof (filter_length_le (fun y => negb (cell_eqb x y)) (unique s)). lia.
Qed.

Lemma dropna_values_length (s : list cell) :
  (List.length (dropna_values s) <= List.length s)%nat.
Proof. induction s as [|[x|] s IH]; simpl; lia. Qed.

(** The distinct values of a column are as many as the lines of its
    grouped table that carry a dose. *)
Lemma nunique_positive_lines keys col (view : DataFrame) :
  NoDup keys ->
  (forall r, In r view -> Dose r = 1) ->
  (forall r k, In r view -> col r = Some k -> In k keys) ->
  nunique (map col view)
  = Z.of_nat (List.length (filter (fun e => 0 <? snd e)
                             (groupby_sum keys col view))).
Proof.
  intros Hn Hdose Hcover. unfold nunique. f_equal.
  assert (Hmap : map fst (filter (fun e => 0 <? snd e)
                            (groupby_sum keys col view))
                 = filter (fun k => 0 <? group_sum col view k) keys).
  { unfold groupby_sum. clear Hn Hcover.
    induction keys as [|k keys IH]; simpl; [reflexivity|].
    destruct (0 <? group_sum col view k); simpl; now rewrite IH. }
  rewrite <- (length_map fst (filter _ (groupby_sum keys col view))), Hmap.
  apply Permutation_length, NoDup_Permutation.
  - apply dropna_values_NoDup, unique_NoDup.
  - now apply NoDup_filter.
  - intros k. rewrite dropna_values_In, unique_In, in_map_iff, filter_In.
    rewrite Z.ltb_lt, (group_sum_pos _ view k Hdose). split.
    + intros (r & Hk & Hr). split; [now apply (Hcover r) | now exists r].
    + intros [_ (r & Hr & Hk)]. now exists r.
Qed.

(** In a table sorted by falling doses the lines that carry a dose come
    first. *)
Lemma positive_lines_lead (t : list (string * Z)) :
  StronglySorted (fun a b => snd b <= snd a) t ->
  filter (fun e => 0 <? snd e) t
  = firstn (List.length (filter (fun e => 0 <? snd e) t)) t.
Proof.
  induction 1 as [|e t Hs IH Hall]; simpl; [reflexivity|].
  destruct (0 <? snd e) eqn:E; simpl; [now rewrite <- IH|].
  apply Z.ltb_ge in E.
  rewrite filter_none; [reflexivity|].
  rewrite Forall_forall in Hall. intros x Hx.
  apply Z.ltb_ge. specialize (Hall x Hx). simpl in Hall. lia.
Qed.

Section FigureFacts.

Variable to_datetime : cell -> option Timestamp.
Variable to_numeric : cell -> option number.
Variable cast_overflow : Q -> Z.
Variable observed : bool.
Variable sort_values : list (string * Z) -> list (string * Z).

Hypothesis sort_values_perm : forall t, Permutation t (sort_values t).

Local Abbreviation load := (load_data to_datetime to_numeric cast_overflow).
Local Abbreviation run := (script observed sort_values).
Local Abbreviation grouped df col view :=
  (groupby_sum (group_keys observed (categories col df) col view) col view).

Lemma grouped_total_missing lines df col view :
  load lines = Frame df ->
  incl view df ->
  sum_values (grouped df col view)
  = Z.of_nat (List.length view) - missing col view.
Proof.
  intros Hload Hincl.
  rewrite (grouped_total to_datetime to_numeric cast_overflow observed
             lines df col view Hload Hincl).
  unfold missing.
  pose proof (filter_split_length (fun r => notna (col r)) view). lia.
Qed.

(** X9.  On a rendered run the doses of each of the state, race and sex
    tables add up to the total of doses less the rows of the view that
    have no value in that column, and the doses of the manufacturer
    table to no more than that. *)
Theorem grouped_totals_skip_missing_keys lines df ui d :
  load lines = Frame df ->
  snd (run df ui) = Rendered d ->
  let view := view_idade df ui in
  sum_values (df_uf_doses d)
  = total_doses d - missing sg_uf_estabelecimento view
  /\ sum_values (df_raca_doses d)
     = total_doses d - missing no_raca_cor_paciente view
  /\ sum_values (df_sexo_doses d)
     = total_doses d - missing tp_sexo_paciente view
  /\ sum_values (df_fabricante_doses d)
     <= total_doses d - missing ds_vacina_fabricante view.
Proof.
  intros Hload Hrun view.
  apply script_rendered in Hrun as [-> _].
  pose proof (@view_idade_incl_df df ui) as Hincl. fold view in Hincl.
  unfold aggregate. cbn [total_doses df_uf_doses df_raca_doses df_sexo_doses
                           df_fabricante_doses]. fold view.
  split; [|split; [|split]].
  - rewrite <- (sum_values_perm _ _ (sort_values_perm _)).
    now apply (grouped_total_missing lines).
  - now apply (grouped_total_missing lines).
  - now apply (grouped_total_missing lines).
  - rewrite <- (grouped_total_missing lines df ds_vacina_fabricante view Hload Hincl).
    rewrite (sum_values_perm _ _ (sort_values_perm
               (grouped df ds_vacina_fabricante view))).
    apply sum_values_firstn. apply Forall_forall. intros e He.
    apply (Permutation_in _ (Permutation_sym (sort_values_perm _))) in He.
    apply groupby_sum_In in He as [_ ->].
    apply group_sum_nonneg. intros r Hr.
    apply (load_data_dose _ _ _ lines df r Hload). apply Hincl, Hr.
Qed.

(** X10.  On a rendered run the total of doses is the number of rows
    of the final view and is at least one, and
    the "Estados Envolvidos" figure is the number of lines of the state
    table that carry at least one dose; it never exceeds the total. *)
Theorem estados_match_state_table lines df ui d :
  load lines = Frame df ->
  snd (run df ui) = Rendered d ->
  total_doses d = Z.of_nat (List.length (view_idade df ui))
  /\ 1 <= total_doses d
  /\ total_estados d
     = Z.of_nat (List.length (filter (fun e => 0 <? snd e) (df_uf_doses d)))
  /\ 0 <= total_estados d <= total_doses d.
Proof.
  intros Hload Hrun. apply script_rendered in Hrun as [-> Hne].
  pose proof (@view_idade_incl_df df ui) as Hincl.
  set (view := view_idade df ui) in *.
  unfold aggregate. cbn [total_doses total_estados df_uf_doses].
  assert (Hdose : forall r, In r view -> Dose r = 1).
  { intros r Hr. apply (load_data_dose _ _ _ lines df r Hload). apply Hincl, Hr. }
  split; [reflexivity|].
  split; [destruct view; [congruence | simpl; lia]|].
  split.
  - rewrite <- (Permutation_length
                  (Permutation_filter_same (fun e => 0 <? snd e) _ _
                     (sort_values_perm
                        (grouped df sg_uf_estabelecimento view)))).
    apply nunique_positive_lines.
    + apply group_keys_NoDup, categories_NoDup.
    + exact Hdose.
    + intros r k Hr Hk.
      apply (group_keys_cover observed _ sg_uf_estabelecimento view r);
        try assumption.
      apply categories_In. exists r. split; [now apply Hincl | exact Hk].
  - unfold nunique. split; [lia|].
    apply Nat2Z.inj_le.
    pose proof (dropna_values_length (unique (map sg_uf_estabelecimento view))).
    pose proof (unique_length (map sg_uf_estabelecimento view)).
    rewrite length_map in *. lia.
Qed.

End FigureFacts.

Lemma positive_lines_of_firstn (n : nat) (t : list (string * Z)) :
  StronglySorted (fun a b => snd b <= snd a) t ->
  List.length (filter (fun e => 0 <? snd e) (firstn n t))
  = Nat.min n (List.length (filter (fun e => 0 <? snd e) t)).
Proof.
  intros Hs. revert n.
  induction Hs as [|e t Hs IH Hall]; intros n; [now destruct n|].
  destruct n as [|n]; [reflexivity|]. simpl.
  destruct (0 <? snd e) eqn:E; simpl; [now rewrite IH|].
  apply Z.ltb_ge in E. rewrite Forall_forall in Hall.
  assert (Hnone : forall x, In x t -> (0 <? snd x) = false).
  { intros x Hx. apply Z.ltb_ge. specialize (Hall x Hx). simpl in Hall. lia. }
  rewrite (filter_none _ t Hnone), filter_none; [simpl; lia|].
  intros x Hx. apply Hnone. now apply (firstn_incl n t).
Qed.

Section ChartFacts.

Variable to_datetime : cell -> option Timestamp.
Variable to_numeric : cell -> option number.
Variable cast_overflow : Q -> Z.
Variable observed : bool.
Variable sort_values : list (string * Z) -> list (string * Z).

Hypothesis sort_values_perm : forall t, Permutation t (sort_values t).
Hypothesis sort_values_desc :
  forall t, StronglySorted (fun a b => snd b <= snd a) (sort_values t).

Local Abbreviation load := (load_data to_datetime to_numeric cast_overflow).
Local Abbreviation run := (script observed sort_values).
Local Abbreviation grouped df col view :=
  (groupby_sum (group_keys observed (categories col df) col view) col view).

(** X13.  On a rendered run the manufacturer table shows, among its
    lines, as many manufacturers with doses as the "Fabricantes
    Distintos" figure says, up to ten; when that figure is at most ten
    every manufacturer with a dose in the view has its line. *)
Theorem top10_bars_match_fabricantes lines df ui d :
  load lines = Frame df ->
  snd (run df ui) = Rendered d ->
  Z.of_nat (List.length (filter (fun e => 0 <? snd e) (df_fabricante_doses d)))
  = Z.min 10 (total_fabricantes d)
  /\ (total_fabricantes d <= 10 ->
      forall k,
        0 < group_sum ds_vacina_fabricante (view_idade df ui) k ->
        In k (map fst (df_fabricante_doses d))).
Proof.
  intros Hload Hrun. apply script_rendered in Hrun as [-> _].
  pose proof (@view_idade_incl_df df ui) as Hincl.
  set (view := view_idade df ui) in *.
  unfold aggregate. cbn [total_fabricantes df_fabricante_doses].
  set (table := grouped df ds_vacina_fabricante view).
  assert (Hdose : forall r, In r view -> Dose r = 1).
  { intros r Hr. apply (load_data_dose _ _ _ lines df r Hload). apply Hincl, Hr. }
  assert (Hcover : forall r k, In r view -> ds_vacina_fabricante r = Some k ->
            In k (group_keys observed
                    (categories ds_vacina_fabricante df)
                    ds_vacina_fabricante view)).
  { intros r k Hr Hk.
    apply (group_keys_cover observed _ ds_vacina_fabricante view r);
      try assumption.
    apply categories_In. exists r. split; [now apply Hincl | exact Hk]. }
  assert (Hn : nunique (map ds_vacina_fabricante view)
               = Z.of_nat (List.length (filter (fun e => 0 <? snd e)
                                          (sort_values table)))).
  { rewrite <- (Permutation_length
                  (Permutation_filter_same (fun e => 0 <? snd e) _ _
                     (sort_values_perm table))).
    apply nunique_positive_lines; try assumption.
    apply group_keys_NoDup, categories_NoDup. }
  split.
  - rewrite (positive_lines_of_firstn 10 _ (sort_values_desc table)), Hn. lia.
  - intros Hfew k Hk. rewrite Hn in Hfew.
    apply (group_sum_pos _ view k Hdose) in Hk as Hrow.
    destruct Hrow as (r & Hr & Hkr).
    assert (Hin : In (k, group_sum ds_vacina_fabricante view k)
                    (filter (fun e => 0 <? snd e) (sort_values table))).
    { apply filter_In. split; [|now apply Z.ltb_lt].
      apply (Permutation_in _ (sort_values_perm table)).
      apply groupby_sum_In. split; [now apply (Hcover r) | reflexivity]. }
    rewrite (positive_lines_lead _ (sort_values_desc table)) in Hin.
    set (p := List.length (filter (fun e => 0 <? snd e) (sort_values table)))
      in *.
    assert (Hp : firstn p (sort_values table)
                 = firstn p (firstn 10 (sort_values table))).
    { rewrite firstn_firstn. f_equal. lia. }
    rewrite Hp in Hin. apply firstn_incl in Hin.
    apply in_map_iff. now exists (k, group_sum ds_vacina_fabricante view k).
Qed.

End ChartFacts.

Section ObservedFlag.

Variable to_datetime : cell -> option Timestamp.
Variable to_numeric : cell -> option number.
Variable cast_overflow : Q -> Z.
Variable sort_values : list (string * Z) -> list (string * Z).

Local Abbreviation load := (load_data to_datetime to_numeric cast_overflow).

(** X12.  What [groupby]'s [observed] default decides: unset, the race
    and sex tables have one line for every category of the loaded
    frame, whatever the filters, the filtered-out ones with no dose;
    set, they have a line for exactly the values met in the filtered
    view, each with at least one dose. *)
Theorem observed_decides_empty_groups lines df ui :
  load lines = Frame df ->
  (forall d,
     snd (script false sort_values df ui) = Rendered d ->
     map fst (df_raca_doses d)
     = categories no_raca_cor_paciente df
     /\ map fst (df_sexo_doses d)
        = categories tp_sexo_paciente df)
  /\ (forall d,
        snd (script true sort_values df ui) = Rendered d ->
        Forall (fun e => 0 < snd e) (df_raca_doses d)
        /\ Forall (fun e => 0 < snd e) (df_sexo_doses d)
        /\ (forall k, In k (map fst (df_raca_doses d)) <->
              exists r, In r (view_idade df ui)
                        /\ no_raca_cor_paciente r = Some k)
        /\ (forall k, In k (map fst (df_sexo_doses d)) <->
              exists r, In r (view_idade df ui)
                        /\ tp_sexo_paciente r = Some k)).
Proof.
  intros Hload.
  pose proof (@view_idade_incl_df df ui) as Hincl.
  set (view := view_idade df ui) in *.
  assert (Hdose : forall r, In r view -> Dose r = 1).
  { intros r Hr. apply (load_data_dose _ _ _ lines df r Hload). apply Hincl, Hr. }
  split.
  - intros d Hrun. apply script_rendered in Hrun as [-> _].
    unfold aggregate. cbn [df_raca_doses df_sexo_doses].
    now rewrite !groupby_sum_keys.
  - intros d Hrun. apply script_rendered in Hrun as [-> _].
    unfold aggregate. cbn [df_raca_doses df_sexo_doses]. fold view.
    assert (Hkeys : forall col k,
              In k (group_keys true (categories col df) col view)
              <-> exists r, In r view /\ col r = Some k).
    { intros col k. unfold group_keys. rewrite filter_In, existsb_exists.
      split.
      - intros [_ (r & Hr & E)]. exists r. split; [exact Hr|].
        now apply cell_eqb_eq.
      - intros (r & Hr & E). split.
        + apply categories_In. exists r. split; [now apply Hincl | exact E].
        + exists r. split; [exact Hr | now apply cell_eqb_eq]. }
    assert (Hpos : forall col,
              Forall (fun e => 0 < snd e)
                (groupby_sum
                   (group_keys true (categories col df) col view)
                   col view)).
    { intros col. apply Forall_forall. intros e He.
      apply groupby_sum_In in He as [Hk ->].
      apply (group_sum_pos col view (fst e) Hdose). now apply Hkeys. }
    split; [apply Hpos|]. split; [apply Hpos|].
    split; intros k; rewrite groupby_sum_keys; apply Hkeys.
Qed.

End ObservedFlag.

(** ** The further properties on the sample data *)

Lemma sample_df_dated :
  sample_df <> [] /\ forall r, In r sample_df -> dt_vacina r <> None.
Proof.
  split; [vm_compute; discriminate|].
  intros r Hr. vm_compute in Hr.
  destruct Hr as [<-|[<-|[<-|[<-|[]]]]]; discriminate.
Qed.

Lemma default_dates_witness :
  exists a b,
    date_input_bounds sample_df
    = {| min_date := Some a; max_date := Some b; warned := false |}
    /\ (exists r t, In r sample_df /\ dt_vacina r = Some t /\ ts_date t = a)
    /\ (exists r t, In r sample_df /\ dt_vacina r = Some t /\ ts_date t = b)
    /\ (forall r t, In r sample_df -> dt_vacina r = Some t ->
          date_le a (ts_date t) /\ date_le (ts_date t) b)
    /\ date_stage sample_df [a; b] = sample_df.
Proof.
  exact (default_dates_keep_every_row sample_df
           (proj1 sample_df_dated) (proj2 sample_df_dated)).
Defined.

Example sample_date_bounds :
  date_input_bounds sample_df
  = {| min_date := Some (mkDate 2025 3 1);
       max_date := Some (mkDate 2025 3 31);
       warned := false |}.
Proof. vm_compute. reflexivity. Qed.

Lemma defaults_keep_every_row_witness :
  view_idade sample_df ui_first_run = view_date sample_df ui_first_run
  /\ snd (script true sort_by_dose sample_df ui_first_run)
     = Rendered (aggregate true sort_by_dose sample_df
                   (view_date sample_df ui_first_run))
  /\ total_doses (aggregate true sort_by_dose sample_df
                    (view_date sample_df ui_first_run))
     = Z.of_nat (List.length (view_date sample_df ui_first_run)).
Proof.
  apply (defaults_keep_every_row true sort_by_dose sample_df ui_first_run);
    vm_compute; reflexivity.
Defined.

Lemma grouped_totals_witness :
  let d := aggregate true sort_by_dose sample_df
             (view_idade sample_df ui_first_run) in
  missing sg_uf_estabelecimento (view_idade sample_df ui_first_run) = 1
  /\ sum_values (df_uf_doses d) = total_doses d - 1
  /\ sum_values (df_fabricante_doses d) <= total_doses d - 1.
Proof.
  assert (Hrun : snd (script true sort_by_dose sample_df ui_first_run)
                 = Rendered (aggregate true sort_by_dose sample_df
                               (view_idade sample_df ui_first_run)))
    by (vm_compute; reflexivity).
  destruct (grouped_totals_skip_missing_keys to_datetime_dmY
              to_numeric_decimal cast_overflow_x86 true sort_by_dose
              sort_by_dose_perm sample_lines sample_df ui_first_run _
              sample_loads Hrun) as (H1 & _ & _ & H4).
  split; [reflexivity|]. split; [exact H1 | exact H4].
Defined.

Lemma estados_witness :
  let d := aggregate false sort_by_dose sample_df
             (view_idade sample_df ui_one_date) in
  df_uf_doses d = [("SP", 2); ("RJ", 0)]
  /\ total_doses d
     = Z.of_nat (List.length (view_idade sample_df ui_one_date))
  /\ 1 <= total_doses d
  /\ total_estados d
     = Z.of_nat (List.length (filter (fun e => 0 <? snd e) (df_uf_doses d)))
  /\ 0 <= total_estados d <= total_doses d.
Proof.
  split; [vm_compute; reflexivity|].
  apply (estados_match_state_table to_datetime_dmY to_numeric_decimal
           cast_overflow_x86 false sort_by_dose sort_by_dose_perm
           sample_lines sample_df ui_one_date _ sample_loads).
  vm_compute. reflexivity.
Defined.

Lemma undated_file_witness :
  load_data to_datetime_dmY to_numeric_decimal cast_overflow_x86 undated_lines
  = Frame []
  /\ date_input_bounds
       (loaded (load_data to_datetime_dmY to_numeric_decimal
                  cast_overflow_x86 undated_lines))
     = {| min_date := Some (mkDate 2024 1 1);
          max_date := Some (mkDate 2025 12 31);
          warned := true |}
  /\ forall ui,
       snd (script true sort_by_dose
              (loaded (load_data to_datetime_dmY to_numeric_decimal
                         cast_overflow_x86 undated_lines)) ui)
       = ValueError
       /\ forall D,
            offered D
              (fst (script true sort_by_dose
                      (loaded (load_data to_datetime_dmY to_numeric_decimal
                                 cast_overflow_x86 undated_lines)) ui))
            = [].
Proof.
  apply (undated_file_raises to_datetime_dmY to_numeric_decimal
           cast_overflow_x86 true sort_by_dose undated_lines).
  intros c Hc. vm_compute in Hc.
  destruct Hc as [<-|[<-|[]]]; reflexivity.
Defined.

Lemma top10_bars_witness :
  let d := aggregate false sort_by_dose sample_df
             (view_idade sample_df ui_one_date) in
  df_fabricante_doses d = [("PFIZER", 2); ("BUTANTAN", 0)]
  /\ total_fabricantes d = 1
  /\ Z.of_nat (List.length (filter (fun e => 0 <? snd e)
                              (df_fabricante_doses d)))
     = Z.min 10 (total_fabricantes d)
  /\ (total_fabricantes d <= 10 ->
      forall k,
        0 < group_sum ds_vacina_fabricante
              (view_idade sample_df ui_one_date) k ->
        In k (map fst (df_fabricante_doses d))).
Proof.
  split; [vm_compute; reflexivity|]. split; [vm_compute; reflexivity|].
  apply (top10_bars_match_fabricantes to_datetime_dmY to_numeric_decimal
           cast_overflow_x86 false
           sort_by_dose sort_by_dose_perm sort_by_dose_desc
           sample_lines sample_df ui_one_date _ sample_loads).
  vm_compute. reflexivity.
Defined.

Lemma observed_flag_witness :
  (forall d,
     snd (script false sort_by_dose sample_df ui_one_date) = Rendered d ->
     map fst (df_raca_doses d) = categories no_raca_cor_paciente sample_df
     /\ map fst (df_sexo_doses d) = categories tp_sexo_paciente sample_df)
  /\ (forall d,
        snd (script true sort_by_dose sample_df ui_one_date) = Rendered d ->
        Forall (fun e => 0 < snd e) (df_raca_doses d)
        /\ Forall (fun e => 0 < snd e) (df_sexo_doses d)
        /\ (forall k, In k (map fst (df_raca_doses d)) <->
              exists r, In r (view_idade sample_df ui_one_date)
                        /\ no_raca_cor_paciente r = Some k)
        /\ (forall k, In k (map fst (df_sexo_doses d)) <->
              exists r, In r (view_idade sample_df ui_one_date)
                        /\ tp_sexo_paciente r = Some k)).
Proof.
  exact (observed_decides_empty_groups to_datetime_dmY to_numeric_decimal
           cast_overflow_x86 sort_by_dose sample_lines sample_df ui_one_date
           sample_loads).
Defined.
